(** * dropIndexes: the index-removal command of the catalog layer

    A shallow embedding of [src/mongo/db/catalog/drop_indexes.cpp]
    ([stopIndexBuilds], [wrappedRun], [dropIndexes]) together with the
    collaborators it calls (index catalog, build registry, replication
    coordinator, op observer, write unit of work, the write-conflict retry
    loop), followed by the properties of the operation. *)

From stdpp Require Import gmap strings list pretty.

Open Scope string_scope.
Open Scope list_scope.

(** ** BSON values *)

Module BSONType.
Inductive t := EOO | NumberDouble | String | Object | Bool | NumberInt.
End BSONType.

(** A BSON element carries its value; an object is an ordered sequence of
    named elements. [BEOO] is the element [getField] returns for a field
    that is absent. *)
Inductive BSONElement :=
| BEOO
| BNumber (n : Z)
| BString (s : string)
| BBool (b : bool)
| BObject (o : BSONObj)
with BSONObj :=
| BSONEmpty
| BSONField (name : string) (e : BSONElement) (rest : BSONObj).

Definition type (e : BSONElement) : BSONType.t :=
  match e with
  | BEOO => BSONType.EOO
  | BNumber _ => BSONType.NumberInt
  | BString _ => BSONType.String
  | BBool _ => BSONType.Bool
  | BObject _ => BSONType.Object
  end.

Fixpoint BSONElement_eq_dec (x y : BSONElement) {struct x} : {x = y} + {x <> y}
with BSONObj_eq_dec (x y : BSONObj) {struct x} : {x = y} + {x <> y}.
Proof.
  - decide equality;
      solve [apply Z.eq_dec | apply String.string_dec | apply Bool.bool_dec].
  - decide equality; apply String.string_dec.
Defined.

#[global] Instance BSONElement_eqdec : EqDecision BSONElement := BSONElement_eq_dec.
#[global] Instance BSONObj_eqdec : EqDecision BSONObj := BSONObj_eq_dec.

(** [BSONObj::getField]: the first element with that name, else EOO. *)
Fixpoint getField (o : BSONObj) (name : string) : BSONElement :=
  match o with
  | BSONEmpty => BEOO
  | BSONField n e rest => if decide (n = name) then e else getField rest name
  end.

(** [BSONObjBuilder::append]: a new field goes after the existing ones. *)
Fixpoint append (b : BSONObj) (name : string) (e : BSONElement) : BSONObj :=
  match b with
  | BSONEmpty => BSONField name e BSONEmpty
  | BSONField n x rest => BSONField n x (append rest name e)
  end.

Definition appendNumber (b : BSONObj) (name : string) (n : nat) : BSONObj :=
  append b name (BNumber (Z.of_nat n)).

(** [valuestr()] hands out a [const char*]: both [strcmp] and the
    [std::string] constructor read it up to the first NUL byte. *)
Fixpoint c_str (s : string) : string :=
  match s with
  | EmptyString => EmptyString
  | String c rest =>
      if decide (c = Ascii.zero) then EmptyString else String c (c_str rest)
  end.

Definition valuestr (e : BSONElement) : string :=
  match e with
  | BString s => c_str s
  | _ => EmptyString
  end.

Definition quote : string := String (Ascii.ascii_of_nat 34) EmptyString.

(** Modelled from the spec: [BSONObj::toString] is not part of the source
    file; the key pattern is an ordered field-to-direction mapping and is
    rendered field by field, in order. *)
Fixpoint elemToString (e : BSONElement) : string :=
  match e with
  | BEOO => "EOO"
  | BNumber n => pretty n
  | BString s => quote +:+ s +:+ quote
  | BBool b => if b then "true" else "false"
  | BObject o => "{" +:+ fieldsToString o +:+ " }"
  end
with fieldsToString (o : BSONObj) : string :=
  match o with
  | BSONEmpty => EmptyString
  | BSONField n e BSONEmpty => " " +:+ n +:+ ": " +:+ elemToString e
  | BSONField n e rest =>
      " " +:+ n +:+ ": " +:+ elemToString e +:+ "," +:+ fieldsToString rest
  end.

Definition toString (o : BSONObj) : string := "{" +:+ fieldsToString o +:+ " }".

(** ** Status *)

Module ErrorCodes.
Inductive Error :=
| OK
| InternalError
| NamespaceNotFound
| IndexNotFound
| NotMaster
| InvalidOptions.
End ErrorCodes.

#[global] Instance ErrorCodes_eqdec : EqDecision ErrorCodes.Error.
Proof. solve_decision. Defined.

Record Status := mkStatus { code : ErrorCodes.Error; reason : string }.

#[global] Instance Status_eqdec : EqDecision Status.
Proof. solve_decision. Defined.

Definition Status_OK : Status := mkStatus ErrorCodes.OK EmptyString.

Definition isOK (s : Status) : bool :=
  match code s with
  | ErrorCodes.OK => true
  | _ => false
  end.

(** ** Index catalog, collections, databases *)

(** Modelled from the spec: the descriptor class is declared outside the
    source file; its attributes are a name, a key pattern and the flag that
    marks the _id (primary-key) index. *)
Record IndexDescriptor := mkIndexDescriptor {
  indexName : string;
  keyPattern : BSONObj;
  isIdIndex : bool
}.

#[global] Instance IndexDescriptor_eqdec : EqDecision IndexDescriptor.
Proof. solve_decision. Defined.

Record Collection := mkCollection {
  collectionNs : string;
  indexCatalog : list IndexDescriptor   (* ordered by creation *)
}.

Record Database := mkDatabase {
  databaseName : string;
  collections : gmap string Collection  (* keyed by full namespace *)
}.

Module IndexCatalog.

Module IndexKillCriteria.
Record t := mk { ns : string; name : string; key : BSONObj }.
Definition empty : t := mk EmptyString EmptyString BSONEmpty.
End IndexKillCriteria.

(** Modelled from the spec: the catalog accessor (enumerate, find by
    name, find by key pattern, drop one, drop all) lives outside the
    source file. A descriptor pointer is the position of the descriptor
    in the catalog. *)
Definition numIndexesTotal (cat : list IndexDescriptor) : nat := length cat.

Definition findIndexByName (cat : list IndexDescriptor) (name : string)
  : option (nat * IndexDescriptor) :=
  list_find (fun d => indexName d = name) cat.

Definition findIndexByKeyPattern (cat : list IndexDescriptor) (key : BSONObj)
  : option (nat * IndexDescriptor) :=
  list_find (fun d => keyPattern d = key) cat.

Definition dropIndex (cat : list IndexDescriptor) (desc : nat)
  : list IndexDescriptor :=
  delete desc cat.

Definition dropAllIndexes (cat : list IndexDescriptor) (includingIdIndex : bool)
  : list IndexDescriptor :=
  filter (fun d => isIdIndex d = true /\ includingIdIndex = false) cat.

End IndexCatalog.

Import IndexCatalog.

(** The catalog invariant of the data model: exactly one descriptor is
    flagged as the _id index. *)
Definition hasOneIdIndex (cat : list IndexDescriptor) : bool :=
  bool_decide (length (filter (fun d => isIdIndex d = true) cat) = 1).

(** ** In-progress index builds *)

Record IndexBuild := mkIndexBuild {
  buildNs : string;
  buildName : string;
  buildKey : BSONObj
}.

#[global] Instance IndexBuild_eqdec : EqDecision IndexBuild.
Proof. solve_decision. Defined.

(** A criteria field left at its default value does not constrain. *)
Definition matchesCriteria (c : IndexKillCriteria.t) (b : IndexBuild) : bool :=
  (bool_decide (IndexKillCriteria.ns c = EmptyString)
   || bool_decide (IndexKillCriteria.ns c = buildNs b))
  && (bool_decide (IndexKillCriteria.name c = EmptyString)
      || bool_decide (IndexKillCriteria.name c = buildName b))
  && (bool_decide (IndexKillCriteria.key c = BSONEmpty)
      || bool_decide (IndexKillCriteria.key c = buildKey b)).

(** ** The world the operation runs in *)

Inductive LockMode := MODE_IX | MODE_X.

Record OplogEntry := mkOplogEntry { opNs : string; opObj : BSONObj }.

Inductive Event :=
| EvLockGlobal (m : LockMode)
| EvLockDb (db : string) (m : LockMode)
| EvUnlockDb (db : string)
| EvUnlockGlobal
| EvCanAcceptWrites (db : string)
| EvBeginUnitOfWork
| EvKillBuilds (c : IndexKillCriteria.t)
| EvCatalogRead (ns : string)
| EvCatalogDrop (ns : string)
| EvOnDropIndex (ns : string)
| EvCommit
| EvRollback
| EvWriteConflict (attempt : nat).

#[global] Instance LockMode_eqdec : EqDecision LockMode.
Proof. solve_decision. Defined.
#[global] Instance IndexKillCriteria_eqdec : EqDecision IndexKillCriteria.t.
Proof. solve_decision. Defined.
#[global] Instance Event_eqdec : EqDecision Event.
Proof. solve_decision. Defined.

(** The part of the state a write unit of work protects. *)
Record Snapshot := mkSnapshot {
  snapDbHolder : gmap string Database;
  snapOplog : list OplogEntry
}.

Record World := mkWorld {
  dbHolder : gmap string Database;   (* the in-memory catalog *)
  oplog : list OplogEntry;           (* the replicated log *)
  inProgress : list IndexBuild;      (* registry of the build subsystem *)
  unitOfWork : option Snapshot;      (* open write unit of work, if any *)
  result : BSONObj;                  (* the caller's BSONObjBuilder *)
  serverLog : list string;
  trace : list Event                 (* oldest event first *)
}.

Definition setDbHolder (h : gmap string Database) (w : World) : World :=
  mkWorld h (oplog w) (inProgress w) (unitOfWork w) (result w) (serverLog w) (trace w).
Definition setOplog (l : list OplogEntry) (w : World) : World :=
  mkWorld (dbHolder w) l (inProgress w) (unitOfWork w) (result w) (serverLog w) (trace w).
Definition setInProgress (b : list IndexBuild) (w : World) : World :=
  mkWorld (dbHolder w) (oplog w) b (unitOfWork w) (result w) (serverLog w) (trace w).
Definition setUnitOfWork (u : option Snapshot) (w : World) : World :=
  mkWorld (dbHolder w) (oplog w) (inProgress w) u (result w) (serverLog w) (trace w).
Definition setResult (r : BSONObj) (w : World) : World :=
  mkWorld (dbHolder w) (oplog w) (inProgress w) (unitOfWork w) r (serverLog w) (trace w).
Definition setServerLog (l : list string) (w : World) : World :=
  mkWorld (dbHolder w) (oplog w) (inProgress w) (unitOfWork w) (result w) l (trace w).
Definition setTrace (t : list Event) (w : World) : World :=
  mkWorld (dbHolder w) (oplog w) (inProgress w) (unitOfWork w) (result w) (serverLog w) t.

(** A collection and its index catalog, as seen through the holder. *)
Definition getCollection (d : Database) (ns : string) : option Collection :=
  collections d !! ns.

Definition collectionOf (h : gmap string Database) (db ns : string)
  : option Collection :=
  d ← h !! db; getCollection d ns.

Definition catalogOf (h : gmap string Database) (db ns : string)
  : option (list IndexDescriptor) :=
  indexCatalog <$> collectionOf h db ns.

Definition alterCatalog (f : list IndexDescriptor -> list IndexDescriptor)
    (db ns : string) (h : gmap string Database) : gmap string Database :=
  alter (fun d =>
           mkDatabase (databaseName d)
             (alter (fun c => mkCollection (collectionNs c) (f (indexCatalog c)))
                    ns (collections d)))
        db h.

(** ** The environment: what the collaborators answer *)

Inductive StorageEvent :=
| StorageOk
| StorageWriteConflict
| StorageFails (msg : string).

Inductive Exception :=
| WriteConflictException
| DurabilityFailure.

#[global] Instance Exception_eqdec : EqDecision Exception.
Proof. solve_decision. Defined.

(** The answers may differ from one attempt to the next, so they are
    indexed by the attempt number. *)
Record Env := mkEnv {
  quiet : bool;                                        (* serverGlobalParams.quiet *)
  writesAreReplicated : bool;                          (* txn->writesAreReplicated() *)
  canAcceptWritesForDatabase : nat -> string -> bool;  (* replication coordinator *)
  storageEngine : nat -> StorageEvent;                 (* fate of the catalog write *)
  logAppends : nat -> bool                             (* fate of the log append *)
}.

(** ** A state monad with exceptions *)

Inductive Res (A : Type) :=
| Val (a : A)
| Throw (e : Exception).
Arguments Val {A} a.
Arguments Throw {A} e.

Definition M (A : Type) : Type := World -> Res A * World.

#[global] Instance M_ret : MRet M := fun A a w => (Val a, w).
#[global] Instance M_bind : MBind M := fun A B f m w =>
  match m w with
  | (Val a, w') => f a w'
  | (Throw e, w') => (Throw e, w')
  end.

Definition throw {A} (e : Exception) : M A := fun w => (Throw e, w).
Definition get : M World := fun w => (Val w, w).
Definition modify (f : World -> World) : M unit := fun w => (Val tt, f w).
Definition emit (e : Event) : M unit := modify (fun w => setTrace (trace w ++ [e]) w).

(** A C++ scope: [dtor] runs when [body] is left, whether by falling off
    its end, by [return] or by an exception. *)
Definition scoped {A} (body : M A) (dtor : World -> World) : M A := fun w =>
  let '(r, w') := body w in (r, dtor w').

(** ** Namespaces *)

Module NamespaceString.
Record t := mk { db : string; coll : string }.
Definition toString (n : t) : string := db n +:+ "." +:+ coll n.
End NamespaceString.

(** ** The operation *)

Section DropIndexes.

Variable env : Env.

(** *** Collaborators *)

(** Modelled from the spec: the build registry (enumerate and cancel
    matching) is not in the source file. Every in-progress build on the
    collection that matches the criteria is removed from the registry and
    returned. [collection] is the collection pointer: the namespace under
    which its database has the collection, [None] for the null pointer,
    on which there is no build. *)
Definition killMatchingIndexBuilds (collection : option string)
    (criteria : IndexKillCriteria.t) : M (list IndexBuild) :=
  emit (EvKillBuilds criteria);;
  w ← get;
  let hit b := match collection with
               | Some c => bool_decide (buildNs b = c) && matchesCriteria criteria b
               | None => false
               end in
  modify (setInProgress (filter (fun b => hit b = false) (inProgress w)));;
  mret (filter (fun b => hit b = true) (inProgress w)).

(** Reading the index catalog through the collection pointer. *)
Definition readCatalog (db ns : string) : M (list IndexDescriptor) :=
  emit (EvCatalogRead ns);;
  w ← get;
  mret (default [] (catalogOf (dbHolder w) db ns)).

(** Modelled from the spec: a catalog write goes to the storage engine,
    which lets it through, detects a concurrent structural change after
    the in-memory catalog was updated (write conflict), or refuses it
    with a failure status. *)
Definition writeCatalog (attempt : nat) (db ns : string)
    (f : list IndexDescriptor -> list IndexDescriptor) : M Status :=
  emit (EvCatalogDrop ns);;
  match storageEngine env attempt with
  | StorageOk =>
      modify (fun w => setDbHolder (alterCatalog f db ns (dbHolder w)) w);;
      mret Status_OK
  | StorageWriteConflict =>
      modify (fun w => setDbHolder (alterCatalog f db ns (dbHolder w)) w);;
      throw WriteConflictException
  | StorageFails msg => mret (mkStatus ErrorCodes.InternalError msg)
  end.

(** Modelled from the spec: the durable-log appender, append(event) ->
    Result<(), Error>. [onDropIndex] returns nothing, so a failed append
    leaves it as an exception. The event is recorded once the entry is in
    the log. *)
Definition onDropIndex (attempt : nat) (ns : string) (idxDescriptor : BSONObj)
  : M unit :=
  if logAppends env attempt then
    modify (fun w => setOplog (oplog w ++ [mkOplogEntry ns idxDescriptor]) w);;
    emit (EvOnDropIndex ns)
  else throw DurabilityFailure.

(** Modelled from the spec: the write unit of work. Its constructor
    remembers the state it protects, [commit] makes the changes made
    since then final, and a unit destroyed without [commit] puts the
    remembered state back. *)
Definition beginUnitOfWork : M unit :=
  modify (fun w => setUnitOfWork (Some (mkSnapshot (dbHolder w) (oplog w))) w);;
  emit EvBeginUnitOfWork.

Definition commit : M unit :=
  modify (setUnitOfWork None);;
  emit EvCommit.

Definition endUnitOfWork (w : World) : World :=
  match unitOfWork w with
  | None => w
  | Some s =>
      let w1 := setUnitOfWork None (setOplog (snapOplog s) (setDbHolder (snapDbHolder s) w)) in
      setTrace (trace w1 ++ [EvRollback]) w1
  end.

Definition unlock (e : Event) (w : World) : World := setTrace (trace w ++ [e]) w.

(** *** stopIndexBuilds *)

(** [db] is the database pointer, which the function dereferences
    without a check: the name of the database in the holder. *)
Definition stopIndexBuilds (db toDeleteNs : string) (cmdObj : BSONObj)
  : M (list IndexBuild) :=
  w ← get;
  let collection := match collectionOf (dbHolder w) db toDeleteNs with
                    | Some _ => Some toDeleteNs
                    | None => None
                    end in
  let criteria := IndexKillCriteria.empty in
  let toDrop := getField cmdObj "index" in
  match toDrop with
  | BString _ =>
      if decide (valuestr toDrop = "*") then
        killMatchingIndexBuilds collection
          (IndexKillCriteria.mk toDeleteNs (IndexKillCriteria.name criteria)
                                (IndexKillCriteria.key criteria))
      else
        killMatchingIndexBuilds collection
          (IndexKillCriteria.mk (IndexKillCriteria.ns criteria) (valuestr toDrop)
                                (IndexKillCriteria.key criteria))
  | BObject o =>
      killMatchingIndexBuilds collection
        (IndexKillCriteria.mk (IndexKillCriteria.ns criteria)
                              (IndexKillCriteria.name criteria) o)
  | _ => mret []
  end.

(** *** wrappedRun *)

(** [db] is the database pointer: [None] is the null pointer, [Some d]
    points at the database the holder has under [d]. The log line goes to
    [serverLog]; the [OldClientContext] has no part in what follows and is
    left out. *)
Definition wrappedRun (attempt : nat) (dbname toDeleteNs : string)
    (db : option string) (jsobj : BSONObj) : M Status :=
  (if quiet env then mret tt
   else modify (fun w =>
          setServerLog (serverLog w ++ ["CMD: dropIndexes " +:+ toDeleteNs]) w));;
  w ← get;
  let collection := match db with
                    | Some d => collectionOf (dbHolder w) d toDeleteNs
                    | None => None
                    end in
  match db, collection with
  | Some d, Some _ =>
      stopIndexBuilds d toDeleteNs jsobj;;
      entries ← readCatalog d toDeleteNs;
      modify (fun w =>
        setResult (appendNumber (result w) "nIndexesWas"
                                (numIndexesTotal entries)) w);;
      let f := getField jsobj "index" in
      match f with
      | BString _ =>
          let indexToDelete := valuestr f in
          if decide (indexToDelete = "*") then
            s ← writeCatalog attempt d toDeleteNs (fun c => dropAllIndexes c false);
            if negb (isOK s) then mret s
            else
              modify (fun w =>
                setResult (append (result w) "msg"
                    (BString "non-_id indexes dropped for collection")) w);;
              mret Status_OK
          else
            cat ← readCatalog d toDeleteNs;
            match findIndexByName cat indexToDelete with
            | None =>
                mret (mkStatus ErrorCodes.IndexNotFound
                        ("index not found with name [" +:+ indexToDelete +:+ "]"))
            | Some (desc, descriptor) =>
                if isIdIndex descriptor then
                  mret (mkStatus ErrorCodes.InvalidOptions "cannot drop _id index")
                else
                  s ← writeCatalog attempt d toDeleteNs (fun c => dropIndex c desc);
                  if negb (isOK s) then mret s else mret Status_OK
            end
      | BObject embeddedObject =>
          cat ← readCatalog d toDeleteNs;
          match findIndexByKeyPattern cat embeddedObject with
          | None =>
              mret (mkStatus ErrorCodes.InvalidOptions
                      ("can't find index with key: " +:+ toString embeddedObject))
          | Some (desc, descriptor) =>
              if isIdIndex descriptor then
                mret (mkStatus ErrorCodes.InvalidOptions "cannot drop _id index")
              else
                s ← writeCatalog attempt d toDeleteNs (fun c => dropIndex c desc);
                if negb (isOK s) then mret s else mret Status_OK
          end
      | _ => mret (mkStatus ErrorCodes.IndexNotFound "invalid index name spec")
      end
  | _, _ => mret (mkStatus ErrorCodes.NamespaceNotFound "ns not found")
  end.

(** *** dropIndexes *)

(** One pass through the block between the retry-loop macros. [Some s]
    is a [return s] from inside the block, [None] is falling off its
    end. The three scopes are the [ScopedTransaction], the [AutoGetDb]
    and the [WriteUnitOfWork]. *)
Definition attemptBody (ns : NamespaceString.t) (idxDescriptor : BSONObj)
    (attempt : nat) : M (option Status) :=
  let dbName := NamespaceString.db ns in
  scoped
    (emit (EvLockGlobal MODE_IX);;
     scoped
       (emit (EvLockDb dbName MODE_X);;
        w ← get;
        let autoDb := match dbHolder w !! dbName with
                      | Some _ => Some dbName
                      | None => None
                      end in
        canAccept ← (if writesAreReplicated env
                     then emit (EvCanAcceptWrites dbName);;
                          mret (canAcceptWritesForDatabase env attempt dbName)
                     else mret true);
        let userInitiatedWritesAndNotPrimary :=
          writesAreReplicated env && negb canAccept in
        if userInitiatedWritesAndNotPrimary then
          mret (Some (mkStatus ErrorCodes.NotMaster
                        ("Not primary while dropping indexes in "
                           +:+ NamespaceString.toString ns)))
        else
          scoped
            (beginUnitOfWork;;
             status ← wrappedRun attempt dbName (NamespaceString.toString ns)
                                  autoDb idxDescriptor;
             if negb (isOK status) then mret (Some status)
             else
               onDropIndex attempt (dbName +:+ ".$cmd") idxDescriptor;;
               commit;;
               mret None)
            endUnitOfWork)
       (unlock (EvUnlockDb dbName)))
    (unlock EvUnlockGlobal).

(** Modelled from the spec: the retry-loop macros are defined outside
    the source file. The block is run again whenever it ends in a write
    conflict, any number of times; anything else leaves the loop. [fuel]
    bounds the number of passes the model follows. *)
Fixpoint writeConflictRetryLoop {A} (body : nat -> M A) (fuel attempts : nat)
    (w : World) : option (Res A * World) :=
  match fuel with
  | O => None
  | S fuel' =>
      match body attempts w with
      | (Throw WriteConflictException, w') =>
          writeConflictRetryLoop body fuel' (S attempts)
            (setTrace (trace w' ++ [EvWriteConflict attempts]) w')
      | r => Some r
      end
  end.

Inductive Outcome :=
| Returned (s : Status)
| Uncaught (e : Exception).

(** What the caller gets: the status returned from inside the block,
    [Status::OK()] after the loop, or an exception nobody caught. *)
Definition returnOf (r : Res (option Status)) : Outcome :=
  match r with
  | Val (Some status) => Returned status
  | Val None => Returned Status_OK
  | Throw e => Uncaught e
  end.

(** The loop of [dropIndexes] once [attempts] passes are behind it. *)
Definition dropIndexesFrom (attempts fuel : nat) (ns : NamespaceString.t)
    (idxDescriptor : BSONObj) (w : World) : option (Outcome * World) :=
  match writeConflictRetryLoop (attemptBody ns idxDescriptor) fuel attempts w with
  | None => None
  | Some (r, w') => Some (returnOf r, w')
  end.

Definition dropIndexes (fuel : nat) (ns : NamespaceString.t)
    (idxDescriptor : BSONObj) (w : World) : option (Outcome * World) :=
  dropIndexesFrom 0 fuel ns idxDescriptor w.

End DropIndexes.

(** ** Vocabulary of the properties *)

(** The replication check of one attempt, as [dropIndexes] computes it:
    true when the attempt is refused with NotMaster. *)
Definition userInitiatedWritesAndNotPrimary (env : Env) (attempt : nat)
    (dbName : string) : bool :=
  writesAreReplicated env && negb (canAcceptWritesForDatabase env attempt dbName).

(** [BSONObj::hasField]. *)
Fixpoint hasField (o : BSONObj) (name : string) : bool :=
  match o with
  | BSONEmpty => false
  | BSONField n _ rest => bool_decide (n = name) || hasField rest name
  end.

(** [b] followed by the fields of [ext]. *)
Fixpoint concat (b ext : BSONObj) : BSONObj :=
  match b with
  | BSONEmpty => ext
  | BSONField n e rest => BSONField n e (concat rest ext)
  end.

(** A builder only grows: [b'] is [b] with more fields appended. *)
Definition extends (b b' : BSONObj) : Prop := exists ext, b' = concat b ext.

(** What [wrappedRun] answers when the selector does not lead to a drop:
    [None] for the selectors that reach the storage engine. *)
Definition resolutionFailure (cat : list IndexDescriptor) (f : BSONElement)
  : option Status :=
  match f with
  | BString _ =>
      if decide (valuestr f = "*") then None
      else match findIndexByName cat (valuestr f) with
           | None =>
               Some (mkStatus ErrorCodes.IndexNotFound
                       ("index not found with name [" +:+ valuestr f +:+ "]"))
           | Some (_, descriptor) =>
               if isIdIndex descriptor
               then Some (mkStatus ErrorCodes.InvalidOptions "cannot drop _id index")
               else None
           end
  | BObject o =>
      match findIndexByKeyPattern cat o with
      | None =>
          Some (mkStatus ErrorCodes.InvalidOptions
                  ("can't find index with key: " +:+ toString o))
      | Some (_, descriptor) =>
          if isIdIndex descriptor
          then Some (mkStatus ErrorCodes.InvalidOptions "cannot drop _id index")
          else None
      end
  | _ => Some (mkStatus ErrorCodes.IndexNotFound "invalid index name spec")
  end.

(** Events that touch the index catalog. *)
Definition isCatalogAccess (e : Event) : bool :=
  match e with
  | EvCatalogRead _ | EvCatalogDrop _ => true
  | _ => false
  end.

(** The events [wrappedRun] can leave: at most one build cancellation,
    and it comes before every catalog access. *)
Definition executorEvents (evs : list Event) : bool :=
  match evs with
  | EvKillBuilds _ :: rest => forallb isCatalogAccess rest
  | _ => forallb isCatalogAccess evs
  end.

(** The events every attempt starts and ends with, and the event of the
    replication check. *)
Definition lockPrefix (db : string) : list Event :=
  [EvLockGlobal MODE_IX; EvLockDb db MODE_X].

Definition unlockSuffix (db : string) : list Event :=
  [EvUnlockDb db; EvUnlockGlobal].

Definition gateEvents (env : Env) (db : string) : list Event :=
  if writesAreReplicated env then [EvCanAcceptWrites db] else [].

Definition notPrimaryStatus (ns : NamespaceString.t) : Status :=
  mkStatus ErrorCodes.NotMaster
    ("Not primary while dropping indexes in " +:+ NamespaceString.toString ns).

(** Why an attempt that got past the replication check did not commit. *)
Definition abortCause (env : Env) (attempt : nat) (r : Res (option Status)) : Prop :=
  match r with
  | Val (Some s) => isOK s = false
  | Val None => False
  | Throw WriteConflictException => storageEngine env attempt = StorageWriteConflict
  | Throw DurabilityFailure => logAppends env attempt = false
  end.

(** The three ways one attempt can end. *)
Inductive attempt_ends (env : Env) (ns : NamespaceString.t) (idx : BSONObj)
    (attempt : nat) (w : World) : Res (option Status) -> World -> Prop :=
| ends_rejected :
    userInitiatedWritesAndNotPrimary env attempt (NamespaceString.db ns) = true ->
    attempt_ends env ns idx attempt w
      (Val (Some (notPrimaryStatus ns)))
      (setTrace (trace w ++ lockPrefix (NamespaceString.db ns)
                   ++ gateEvents env (NamespaceString.db ns)
                   ++ unlockSuffix (NamespaceString.db ns)) w)
| ends_committed exec w' :
    userInitiatedWritesAndNotPrimary env attempt (NamespaceString.db ns) = false ->
    logAppends env attempt = true ->
    executorEvents exec = true ->
    trace w' = trace w ++ lockPrefix (NamespaceString.db ns)
                 ++ gateEvents env (NamespaceString.db ns)
                 ++ EvBeginUnitOfWork :: exec
                 ++ [EvOnDropIndex (NamespaceString.db ns +:+ ".$cmd"); EvCommit]
                 ++ unlockSuffix (NamespaceString.db ns) ->
    oplog w' = oplog w ++ [mkOplogEntry (NamespaceString.db ns +:+ ".$cmd") idx] ->
    unitOfWork w' = None ->
    extends (result w) (result w') ->
    attempt_ends env ns idx attempt w (Val None) w'
| ends_aborted exec r w' :
    userInitiatedWritesAndNotPrimary env attempt (NamespaceString.db ns) = false ->
    abortCause env attempt r ->
    executorEvents exec = true ->
    trace w' = trace w ++ lockPrefix (NamespaceString.db ns)
                 ++ gateEvents env (NamespaceString.db ns)
                 ++ EvBeginUnitOfWork :: exec
                 ++ [EvRollback]
                 ++ unlockSuffix (NamespaceString.db ns) ->
    dbHolder w' = dbHolder w ->
    oplog w' = oplog w ->
    unitOfWork w' = None ->
    extends (result w) (result w') ->
    attempt_ends env ns idx attempt w r w'.

(** The world after [k] passes in a row that each ended in a write
    conflict, starting with pass number [attempt]; [None] when one of
    them ended otherwise. *)
Fixpoint afterConflicts (env : Env) (ns : NamespaceString.t) (idx : BSONObj)
    (k attempt : nat) (w : World) : option World :=
  match k with
  | O => Some w
  | S k' =>
      match attemptBody env ns idx attempt w with
      | (Throw WriteConflictException, w') =>
          afterConflicts env ns idx k' (S attempt)
            (setTrace (trace w' ++ [EvWriteConflict attempt]) w')
      | _ => None
      end
  end.

(** Whether the attempts committed, as the trace and the log show it. *)
Definition committedAfterLogging (env : Env) (ns : NamespaceString.t)
    (idx : BSONObj) (w w' : World) : Prop :=
  exists evs,
    trace w' = trace w ++ evs
                 ++ [EvOnDropIndex (NamespaceString.db ns +:+ ".$cmd"); EvCommit;
                     EvUnlockDb (NamespaceString.db ns); EvUnlockGlobal] /\
    (EvCommit ∉ evs) /\
    oplog w' = oplog w ++ [mkOplogEntry (NamespaceString.db ns +:+ ".$cmd") idx] /\
    (exists k, logAppends env k = true).

Definition nothingCommitted (w w' : World) : Prop :=
  dbHolder w' = dbHolder w /\ oplog w' = oplog w /\
  exists evs, trace w' = trace w ++ evs /\ EvCommit ∉ evs.

(** Reading "cancellation completes before the exclusive lock is taken"
    on a trace: every build cancellation is at an earlier position than
    every exclusive database lock. *)
Definition killsBeforeDbLock (evs : list Event) : Prop :=
  forall i j c db,
    evs !! i = Some (EvKillBuilds c) ->
    evs !! j = Some (EvLockDb db MODE_X) ->
    i < j.

Definition isLockEvent (e : Event) : bool :=
  match e with
  | EvLockGlobal _ | EvLockDb _ _ | EvUnlockDb _ | EvUnlockGlobal => true
  | _ => false
  end.

(** Events that are neither a lock or an unlock, nor a build cancellation,
    nor a catalog access. *)
Definition plainEvent (e : Event) : bool :=
  match e with
  | EvKillBuilds _ => false
  | _ => negb (isLockEvent e) && negb (isCatalogAccess e)
  end.

(** ** A concrete catalog: the collection test.c with _id_, a_1 and b_1 *)

Module Example.

Definition key (field : string) : BSONObj := BSONField field (BNumber 1) BSONEmpty.

Definition id_ : IndexDescriptor := mkIndexDescriptor "_id_" (key "_id") true.
Definition a_1 : IndexDescriptor := mkIndexDescriptor "a_1" (key "a") false.
Definition b_1 : IndexDescriptor := mkIndexDescriptor "b_1" (key "b") false.

Definition ns : NamespaceString.t := NamespaceString.mk "test" "c".

Definition holder (cat : list IndexDescriptor) : gmap string Database :=
  {[ "test" := mkDatabase "test" {[ "test.c" := mkCollection "test.c" cat ]} ]}.

(** One build in progress on the collection; a fresh result builder. *)
Definition world (cat : list IndexDescriptor) : World :=
  mkWorld (holder cat) [] [mkIndexBuild "test.c" "c_1" (key "c")] None
          BSONEmpty [] [].

Definition w0 : World := world [id_; a_1; b_1].

Definition cmd (selector : BSONElement) : BSONObj :=
  BSONField "dropIndexes" (BString "c") (BSONField "index" selector BSONEmpty).

(** A primary on which storage and log never fail. *)
Definition primary : Env :=
  mkEnv false true (fun _ _ => true) (fun _ => StorageOk) (fun _ => true).

(** A node that cannot accept writes. *)
Definition secondary : Env :=
  mkEnv false true (fun _ _ => false) (fun _ => StorageOk) (fun _ => true).

(** The first [k] catalog writes run into a write conflict. *)
Definition contended (k : nat) : Env :=
  mkEnv false true (fun _ _ => true)
        (fun i => if decide (i < k) then StorageWriteConflict else StorageOk)
        (fun _ => true).

(** A primary that steps down after the first attempt, which itself
    ends in a write conflict. *)
Definition steppingDown : Env :=
  mkEnv false true (fun i _ => bool_decide (i = 0))
        (fun _ => StorageWriteConflict) (fun _ => true).

(** A primary whose log append fails. *)
Definition logFails : Env :=
  mkEnv false true (fun _ _ => true) (fun _ => StorageOk) (fun _ => false).

End Example.

(** ** Vocabulary of the further properties *)

(** What the code reads of the selector: a string up to its first NUL, an
    object, or anything else. *)
Inductive SelectorView :=
| SelString (cstr : string)
| SelObject (o : BSONObj)
| SelOther.

Definition selectorView (f : BSONElement) : SelectorView :=
  match f with
  | BString s => SelString (c_str s)
  | BObject o => SelObject o
  | _ => SelOther
  end.

Definition isWildcard (f : BSONElement) : bool :=
  match f with
  | BString s => bool_decide (c_str s = "*")
  | _ => false
  end.

(** The drop a selector asks for on the catalog [cat], as a function of
    the catalog at the time of the write; [None] when the selector is
    refused. *)
Definition selectedDropFn (cat : list IndexDescriptor) (f : BSONElement)
  : option (list IndexDescriptor -> list IndexDescriptor) :=
  match f with
  | BString _ =>
      if decide (valuestr f = "*") then Some (fun c => dropAllIndexes c false)
      else match findIndexByName cat (valuestr f) with
           | Some (desc, descriptor) =>
               if isIdIndex descriptor then None
               else Some (fun c => dropIndex c desc)
           | None => None
           end
  | BObject o =>
      match findIndexByKeyPattern cat o with
      | Some (desc, descriptor) =>
          if isIdIndex descriptor then None
          else Some (fun c => dropIndex c desc)
      | None => None
      end
  | _ => None
  end.

Definition selectedDrop (cat : list IndexDescriptor) (f : BSONElement)
  : option (list IndexDescriptor) :=
  (fun g => g cat) <$> selectedDropFn cat f.

(** The kill criteria of a selector, and the builds they leave. *)
Definition selectorCriteria (toDeleteNs : string) (f : BSONElement)
  : option IndexKillCriteria.t :=
  match f with
  | BString _ =>
      if decide (valuestr f = "*")
      then Some (IndexKillCriteria.mk toDeleteNs EmptyString BSONEmpty)
      else Some (IndexKillCriteria.mk EmptyString (valuestr f) BSONEmpty)
  | BObject o => Some (IndexKillCriteria.mk EmptyString EmptyString o)
  | _ => None
  end.

Definition cancelled (toDeleteNs : string) (f : BSONElement) (b : IndexBuild) : bool :=
  match selectorCriteria toDeleteNs f with
  | Some c => bool_decide (buildNs b = toDeleteNs) && matchesCriteria c b
  | None => false
  end.

Definition survivors (toDeleteNs : string) (f : BSONElement)
    (builds : list IndexBuild) : list IndexBuild :=
  filter (fun b => cancelled toDeleteNs f b = false) builds.

(** The builds a selector cancels, in the order of the registry. *)
Definition killedBy (toDeleteNs : string) (f : BSONElement)
    (builds : list IndexBuild) : list IndexBuild :=
  filter (fun b => cancelled toDeleteNs f b = true) builds.

(** The result builder after an attempt that reached the selector. *)
Definition withCount (b : BSONObj) (cat : list IndexDescriptor) : BSONObj :=
  appendNumber b "nIndexesWas" (numIndexesTotal cat).

Definition withMessage (f : BSONElement) (b : BSONObj) : BSONObj :=
  if isWildcard f
  then append b "msg" (BString "non-_id indexes dropped for collection")
  else b.

Definition commandLine (env : Env) (toDeleteNs : string) : list string :=
  if quiet env then [] else ["CMD: dropIndexes " +:+ toDeleteNs].

Definition oplogEntryOf (ns : NamespaceString.t) (idx : BSONObj) : OplogEntry :=
  mkOplogEntry (NamespaceString.db ns +:+ ".$cmd") idx.

(** The locks of the operation, and a checker of the lock discipline on a
    trace: locks are taken from the outside in and released from the
    inside out, the replication check, the unit of work, the build
    cancellation, the catalog accesses and the log append happen with
    the exclusive lock of database [db] on top, and a write conflict is
    caught with no lock held. [None] is a breach. *)
Inductive Lock :=
| GlobalLock (m : LockMode)
| DbLock (db : string) (m : LockMode).

Definition lockStep (db : string) (held : list Lock) (e : Event)
  : option (list Lock) :=
  match e, held with
  | EvLockGlobal m, [] => Some [GlobalLock m]
  | EvLockDb d m, [GlobalLock g] => Some [DbLock d m; GlobalLock g]
  | EvUnlockDb d, DbLock d' _ :: rest => if decide (d = d') then Some rest else None
  | EvUnlockGlobal, [GlobalLock _] => Some []
  | EvWriteConflict _, [] => Some []
  | (EvCanAcceptWrites _ | EvBeginUnitOfWork | EvKillBuilds _ | EvCatalogRead _
     | EvCatalogDrop _ | EvOnDropIndex _ | EvCommit | EvRollback),
    DbLock d MODE_X :: _ => if decide (d = db) then Some held else None
  | _, _ => None
  end.

Fixpoint lockRun (db : string) (held : list Lock) (evs : list Event)
  : option (list Lock) :=
  match evs with
  | [] => Some held
  | e :: rest =>
      match lockStep db held e with
      | Some held' => lockRun db held' rest
      | None => None
      end
  end.

(** ** More environments and inputs for the examples *)

Module Scenario.

(** A primary whose storage engine refuses every catalog write. *)
Definition storageRefuses : Env :=
  mkEnv false true (fun _ _ => true) (fun _ => StorageFails "cannot delete index")
        (fun _ => true).

(** A quiet primary. *)
Definition quietPrimary : Env :=
  mkEnv true true (fun _ _ => true) (fun _ => StorageOk) (fun _ => true).

(** The string "*", a NUL byte, then "abc". *)
Definition starNulAbc : string := String (Ascii.ascii_of_nat 42) (String Ascii.zero "abc").

(** A command with a second field named index and a field nobody reads. *)
Definition noisyCmd (selector : BSONElement) : BSONObj :=
  BSONField "dropIndexes" (BString "c")
    (BSONField "index" selector
       (BSONField "index" (BString "b_1")
          (BSONField "comment" (BString "x") BSONEmpty))).

(** Builds in progress on two collections. *)
Definition builds : list IndexBuild :=
  [mkIndexBuild "test.c" "c_1" (Example.key "c");
   mkIndexBuild "test.other" "c_1" (Example.key "c");
   mkIndexBuild "test.c" "d_1" (Example.key "d")].

Definition busy : World :=
  mkWorld (Example.holder [Example.id_; Example.a_1; Example.b_1]) [] builds None
          BSONEmpty [] [].

End Scenario.

(** ** Attempts, as the trace and the state show them *)

(** Reading "the whole attempt is discarded" on the state the next pass
    starts from: but for the trace, which records what happened, it is
    the state the conflicted attempt started from. *)
Definition attemptDiscarded (w w' : World) : Prop :=
  dbHolder w' = dbHolder w /\ oplog w' = oplog w /\
  unitOfWork w' = unitOfWork w /\ inProgress w' = inProgress w /\
  result w' = result w /\ serverLog w' = serverLog w.

(** An attempt starts with the global lock; an attempt that gets past the
    replication check opens its unit of work. *)
Definition startsAttempt (e : Event) : bool :=
  match e with
  | EvLockGlobal _ => true
  | _ => false
  end.

Definition passesCheck (e : Event) : bool :=
  match e with
  | EvBeginUnitOfWork => true
  | _ => false
  end.

Definition countEvents (p : Event -> bool) (evs : list Event) : nat :=
  length (List.filter p evs).

Definition attemptsMade (evs : list Event) : nat := countEvents startsAttempt evs.

Definition attemptsAdmitted (evs : list Event) : nat := countEvents passesCheck evs.

(** The attempts among the first [n] that the replication check lets
    through. *)
Definition admitted (env : Env) (db : string) (n : nat) : list nat :=
  List.filter (fun j => negb (userInitiatedWritesAndNotPrimary env j db)) (seq 0 n).

(** * Proofs *)

(** The catalog accessors and the string helpers stay folded while the
    monad is run. *)
Arguments collectionOf : simpl never.
Arguments catalogOf : simpl never.
Arguments findIndexByName : simpl never.
Arguments findIndexByKeyPattern : simpl never.
Arguments dropIndex : simpl never.
Arguments dropAllIndexes : simpl never.
Arguments numIndexesTotal : simpl never.
Arguments c_str : simpl never.
Arguments toString : simpl never.

(** Running the monad: its operations, then the operations of the model. *)
Ltac unfold_m :=
  unfold mbind, M_bind, mret, M_ret, emit, modify, get, throw, scoped in *.

Ltac unfold_ops :=
  unfold wrappedRun, stopIndexBuilds, killMatchingIndexBuilds, readCatalog,
    writeCatalog, onDropIndex, beginUnitOfWork, commit in *.

(** Two equations for the same lookup. *)
Ltac merge_eqs :=
  repeat match goal with
         | H1 : ?a = _, H2 : ?a = _ |- _ => rewrite H1 in H2; simplify_eq
         end.

(** ** Lookups and refused selectors *)

Lemma catalogOf_Some h db ns cat :
  catalogOf h db ns = Some cat ->
  exists D C, h !! db = Some D /\ collectionOf h db ns = Some C /\
              indexCatalog C = cat.
Proof.
  unfold catalogOf, collectionOf. intros H.
  destruct (h !! db) as [D|] eqn:HD; [|discriminate].
  cbn in *. destruct (getCollection D ns) as [C|] eqn:HC; [|discriminate].
  cbn in H. exists D, C. by simplify_eq.
Qed.

Lemma resolutionFailure_not_OK cat f s :
  resolutionFailure cat f = Some s -> isOK s = false.
Proof.
  unfold resolutionFailure. intros H.
  repeat case_match; by simplify_eq.
Qed.

Lemma wrappedRun_resolution_failure env i dbn ns d js w cat s :
  catalogOf (dbHolder w) d ns = Some cat ->
  resolutionFailure cat (getField js "index") = Some s ->
  exists w', wrappedRun env i dbn ns (Some d) js w = (Val s, w') /\
    dbHolder w' = dbHolder w /\ oplog w' = oplog w /\
    unitOfWork w' = unitOfWork w /\
    result w' = appendNumber (result w) "nIndexesWas" (numIndexesTotal cat).
Proof.
  intros Hcat Hres.
  destruct (catalogOf_Some _ _ _ _ Hcat) as (D & C & HD & HC & <-).
  unfold resolutionFailure in Hres.
  unfold_ops. unfold_m.
  destruct (quiet env); cbn; rewrite HC; cbn.
  all: rewrite ?Hcat; cbn.
  all: destruct (getField js "index") eqn:Hf; cbn in *.
  all: simplify_eq.
  all: repeat (rewrite ?Hcat in *; cbn in *; case_match; simplify_eq; merge_eqs).
  all: rewrite ?Hcat in *; cbn in *; simplify_eq.
  all: try (eexists; split; [reflexivity|]; cbn; done).
Qed.

(** ** BSON builder facts *)

Lemma append_concat b n e : append b n e = concat b (BSONField n e BSONEmpty).
Proof. induction b as [|m x rest IH]; cbn; [done | by rewrite IH]. Qed.

Lemma concat_empty_r b : concat b BSONEmpty = b.
Proof. induction b as [|m x rest IH]; cbn; [done | by rewrite IH]. Qed.

Lemma concat_assoc a b c : concat (concat a b) c = concat a (concat b c).
Proof. induction a as [|m x rest IH]; cbn; [done | by rewrite IH]. Qed.

Lemma extends_refl b : extends b b.
Proof. exists BSONEmpty. by rewrite concat_empty_r. Qed.

Lemma extends_trans a b c : extends a b -> extends b c -> extends a c.
Proof. intros [x ->] [y ->]. exists (concat x y). apply concat_assoc. Qed.

Lemma extends_append a b n e : extends a b -> extends a (append b n e).
Proof.
  intros [x ->]. exists (concat x (BSONField n e BSONEmpty)).
  by rewrite append_concat, concat_assoc.
Qed.

Lemma getField_concat b ext n :
  hasField b n = true -> getField (concat b ext) n = getField b n.
Proof.
  induction b as [|m x rest IH]; cbn; [done|].
  intros H. case_decide as Hm; [done|].
  rewrite bool_decide_eq_false_2 in H by done. by apply IH.
Qed.

Lemma getField_extends b b' n :
  hasField b n = true -> extends b b' -> getField b' n = getField b n.
Proof. intros H [ext ->]. by apply getField_concat. Qed.

Lemma hasField_append b n e : hasField (append b n e) n = true.
Proof.
  induction b as [|m x rest IH]; cbn.
  - by rewrite bool_decide_eq_true_2.
  - rewrite IH. apply orb_true_r.
Qed.

Lemma getField_append_fresh b n e :
  hasField b n = false -> getField (append b n e) n = e.
Proof.
  induction b as [|m x rest IH]; cbn.
  - intros _. by rewrite decide_True.
  - intros [Hm Hrest]%orb_false_elim.
    apply bool_decide_eq_false in Hm. rewrite decide_False by done. by apply IH.
Qed.

Lemma getField_append_ne b n m e :
  n <> m -> getField (append b n e) m = getField b m.
Proof.
  intros Hne. induction b as [|k x rest IH]; cbn.
  - by rewrite decide_False.
  - by rewrite IH.
Qed.

Lemma hasField_append_ne b n m e :
  n <> m -> hasField (append b n e) m = hasField b m.
Proof.
  intros Hne. induction b as [|k x rest IH]; cbn.
  - by rewrite bool_decide_eq_false_2.
  - by rewrite IH.
Qed.

Lemma extends_hasField b b' n :
  hasField b n = true -> extends b b' -> hasField b' n = true.
Proof.
  intros H [ext ->]. induction b as [|m x rest IH]; cbn in *; [done|].
  apply orb_true_iff in H as [H|H]; [by rewrite H|].
  rewrite IH by done. apply orb_true_r.
Qed.

(** ** The executor *)

Lemma wrappedRun_frame env i dbn ns db js w r w' :
  wrappedRun env i dbn ns db js w = (r, w') ->
  unitOfWork w' = unitOfWork w /\ oplog w' = oplog w /\
  extends (result w) (result w') /\
  (exists evs, trace w' = trace w ++ evs /\ executorEvents evs = true) /\
  (forall e, r = Throw e ->
     e = WriteConflictException /\ storageEngine env i = StorageWriteConflict).
Proof.
  unfold_ops. unfold_m. intros H.
  repeat (case_match; simplify_eq; cbn in * ).
  all: split; [reflexivity|split; [reflexivity|]].
  all: split; [eauto using extends_refl, extends_append|].
  all: split; [|intros ? ?; by simplify_eq].
  all: rewrite <- ?app_assoc; cbn.
  all: try (eexists; split; [reflexivity|reflexivity]).
  all: exists []; by rewrite app_nil_r.
Qed.

Lemma wrappedRun_count env i dbn ns d js w r w' cat :
  catalogOf (dbHolder w) d ns = Some cat ->
  wrappedRun env i dbn ns (Some d) js w = (r, w') ->
  extends (appendNumber (result w) "nIndexesWas" (numIndexesTotal cat)) (result w').
Proof.
  intros Hcat.
  destruct (catalogOf_Some _ _ _ _ Hcat) as (D & C & HD & HC & <-).
  unfold_ops. unfold_m. intros H.
  destruct (quiet env); cbn in H; rewrite HC in H.
  all: repeat (rewrite ?Hcat in *; cbn in *; case_match; simplify_eq; merge_eqs).
  all: rewrite ?Hcat in *; cbn in *; simplify_eq.
  all: rewrite ?Hcat; cbn.
  all: unfold appendNumber; eauto using extends_refl, extends_append.
Qed.

Lemma wrappedRun_absent env i dbn ns db js w :
  match db with
  | Some d => collectionOf (dbHolder w) d ns
  | None => None
  end = None ->
  exists w', wrappedRun env i dbn ns db js w =
               (Val (mkStatus ErrorCodes.NamespaceNotFound "ns not found"), w') /\
    dbHolder w' = dbHolder w /\ oplog w' = oplog w /\
    inProgress w' = inProgress w /\ result w' = result w /\
    unitOfWork w' = unitOfWork w /\ trace w' = trace w.
Proof.
  intros H. unfold wrappedRun. unfold_m.
  destruct (quiet env); cbn; rewrite H.
  all: destruct db; eexists; (split; [reflexivity|done]).
Qed.

(** ** One attempt *)

Lemma attemptBody_ends env ns idx i w r w' :
  attemptBody env ns idx i w = (r, w') -> attempt_ends env ns idx i w r w'.
Proof.
  unfold attemptBody. unfold_m. cbn.
  unfold beginUnitOfWork, commit, onDropIndex. unfold_m. cbn.
  intros H.
  destruct (writesAreReplicated env) eqn:Hrep; cbn in H.
  1: destruct (canAcceptWritesForDatabase env i (NamespaceString.db ns)) eqn:Hacc;
       cbn in H.
  2: { simplify_eq. 
       pose proof (ends_rejected env ns idx i w) as R.
       unfold userInitiatedWritesAndNotPrimary, gateEvents, lockPrefix, unlockSuffix,
         notPrimaryStatus, unlock in *.
       rewrite Hrep, Hacc in R. cbn in *. rewrite <- !app_assoc. cbn. by apply R. }
  all: match type of H with
       | context [wrappedRun ?a ?b ?c ?d ?e ?f ?g] =>
           destruct (wrappedRun a b c d e f g) as [r1 w1] eqn:Hrun
       end.
  all: apply wrappedRun_frame in Hrun as (Hu & Ho & Hx & (exec & Ht & Hexec) & Hthrow).
  all: assert (Hgate : userInitiatedWritesAndNotPrimary env i (NamespaceString.db ns)
                         = false)
         by (unfold userInitiatedWritesAndNotPrimary; rewrite Hrep, ?Hacc; done).
  all: destruct r1 as [a|e];
         [destruct (isOK a) eqn:Hok; cbn in H;
          [destruct (logAppends env i) eqn:Hlog; cbn in H|]|];
         simplify_eq.
  all: unfold endUnitOfWork, unlock; cbn; rewrite ?Hu; cbn.
  all: first [ eapply (ends_committed _ _ _ _ _ exec)
             | eapply (ends_aborted _ _ _ _ _ exec) ];
         try done; cbn; rewrite ?Ho; try done.
  all: try (destruct e; by destruct (Hthrow _ eq_refl)).
  all: rewrite Ht; unfold lockPrefix, gateEvents, unlockSuffix; rewrite Hrep; cbn.
  all: by rewrite <- !app_assoc.
Qed.

Ltac past_gate Hgate :=
  unfold attemptBody; unfold_m; cbn;
  unfold beginUnitOfWork, commit, onDropIndex; unfold_m; cbn;
  unfold userInitiatedWritesAndNotPrimary in Hgate;
  destruct (writesAreReplicated _) eqn:?; cbn in Hgate |- *;
  [destruct (canAcceptWritesForDatabase _ _ _) eqn:?; [|discriminate]; cbn|].

Lemma attemptBody_rejected env ns idx i w :
  userInitiatedWritesAndNotPrimary env i (NamespaceString.db ns) = true ->
  attemptBody env ns idx i w =
    (Val (Some (notPrimaryStatus ns)),
     setTrace (trace w ++ lockPrefix (NamespaceString.db ns)
                 ++ gateEvents env (NamespaceString.db ns)
                 ++ unlockSuffix (NamespaceString.db ns)) w).
Proof.
  intros Hgate.
  destruct (attemptBody env ns idx i w) as [r w'] eqn:H.
  apply attemptBody_ends in H. inversion H; subst; [done|congruence..].
Qed.

Lemma attemptBody_absent env ns idx i w :
  userInitiatedWritesAndNotPrimary env i (NamespaceString.db ns) = false ->
  collectionOf (dbHolder w) (NamespaceString.db ns) (NamespaceString.toString ns)
    = None ->
  exists w', attemptBody env ns idx i w =
      (Val (Some (mkStatus ErrorCodes.NamespaceNotFound "ns not found")), w') /\
    dbHolder w' = dbHolder w /\ oplog w' = oplog w /\
    inProgress w' = inProgress w /\ result w' = result w.
Proof.
  intros Hgate Habs. past_gate Hgate.
  all: match goal with
       | |- context [wrappedRun ?a ?b ?c ?d ?e ?f ?g] =>
           destruct (wrappedRun_absent a b c d e f g)
             as (w2 & -> & Hd & Ho & Hp & Hr & Hu & Ht);
             [by destruct (dbHolder w !! NamespaceString.db ns)|]
       end.
  all: cbn in *; unfold endUnitOfWork, unlock; rewrite Hu; cbn.
  all: eexists; split; [reflexivity|]; cbn; by rewrite ?Hp, ?Hr.
Qed.

Lemma attemptBody_resolution_failure env ns idx i w cat s :
  userInitiatedWritesAndNotPrimary env i (NamespaceString.db ns) = false ->
  catalogOf (dbHolder w) (NamespaceString.db ns) (NamespaceString.toString ns)
    = Some cat ->
  resolutionFailure cat (getField idx "index") = Some s ->
  exists w', attemptBody env ns idx i w = (Val (Some s), w') /\
    dbHolder w' = dbHolder w /\ oplog w' = oplog w /\
    result w' = appendNumber (result w) "nIndexesWas" (numIndexesTotal cat).
Proof.
  intros Hgate Hcat Hres.
  destruct (catalogOf_Some _ _ _ _ Hcat) as (D & C & HD & HC & HCcat).
  pose proof (resolutionFailure_not_OK _ _ _ Hres) as Hnok.
  past_gate Hgate.
  all: rewrite HD.
  all: match goal with
       | |- context [wrappedRun ?a ?b ?c ?d ?e ?f ?g] =>
           destruct (wrappedRun_resolution_failure a b c d c f g cat s Hcat Hres)
             as (w2 & -> & Hd & Ho & Hu & Hr)
       end.
  all: cbn in *; rewrite Hnok; cbn; unfold endUnitOfWork, unlock; rewrite Hu; cbn.
  all: eexists; split; [reflexivity|]; cbn; by rewrite ?Hr.
Qed.

(** ** The wildcard path *)

Lemma catalogOf_alterCatalog f d ns h :
  catalogOf (alterCatalog f d ns h) d ns = f <$> catalogOf h d ns.
Proof.
  unfold catalogOf, collectionOf, alterCatalog, getCollection.
  rewrite lookup_alter_eq.
  destruct (h !! d) as [D|]; cbn; [|done].
  rewrite lookup_alter_eq. by destruct (collections D !! ns).
Qed.

Lemma dropAllIndexes_keeps_id cat :
  hasOneIdIndex cat = true ->
  exists pk, dropAllIndexes cat false = [pk] /\ pk ∈ cat /\ isIdIndex pk = true.
Proof.
  unfold hasOneIdIndex, dropAllIndexes. intros H%bool_decide_eq_true.
  assert (Heq : filter (fun d => isIdIndex d = true /\ false = false) cat
                = filter (fun d => isIdIndex d = true) cat)
    by (apply list_filter_iff; intros x; split; [by intros [? _]|done]).
  rewrite Heq.
  destruct (filter (fun d => isIdIndex d = true) cat) as [|pk rest] eqn:Hf;
    [done|].
  destruct rest; [|done].
  exists pk. split; [done|].
  assert (Hin : pk ∈ filter (fun d => isIdIndex d = true) cat)
    by (rewrite Hf; apply list_elem_of_here).
  apply list_elem_of_filter in Hin as [? ?]. done.
Qed.

Lemma dropAllIndexes_drops_rest cat d :
  isIdIndex d = false -> d ∉ dropAllIndexes cat false.
Proof.
  unfold dropAllIndexes. intros Hd [[Hid _] _]%list_elem_of_filter. congruence.
Qed.

Lemma wrappedRun_wildcard env i dbn ns d js w cat s :
  catalogOf (dbHolder w) d ns = Some cat ->
  getField js "index" = BString s ->
  c_str s = "*" ->
  storageEngine env i = StorageOk ->
  exists w', wrappedRun env i dbn ns (Some d) js w = (Val Status_OK, w') /\
    dbHolder w' = alterCatalog (fun c => dropAllIndexes c false) d ns (dbHolder w) /\
    oplog w' = oplog w /\ unitOfWork w' = unitOfWork w /\
    result w' = append (appendNumber (result w) "nIndexesWas" (numIndexesTotal cat))
                  "msg" (BString "non-_id indexes dropped for collection").
Proof.
  intros Hcat Hf Hstar Hok.
  destruct (catalogOf_Some _ _ _ _ Hcat) as (D & C & HD & HC & <-).
  unfold_ops. unfold_m.
  destruct (quiet env); cbn; rewrite HC; cbn.
  all: rewrite ?Hcat, Hf; cbn; rewrite Hstar; cbn; rewrite Hok; cbn.
  all: rewrite ?Hcat; cbn.
  all: eexists; split; [reflexivity|]; cbn; by rewrite Hcat.
Qed.

Lemma attemptBody_wildcard env ns idx i w cat s :
  userInitiatedWritesAndNotPrimary env i (NamespaceString.db ns) = false ->
  catalogOf (dbHolder w) (NamespaceString.db ns) (NamespaceString.toString ns)
    = Some cat ->
  getField idx "index" = BString s ->
  c_str s = "*" ->
  storageEngine env i = StorageOk ->
  logAppends env i = true ->
  exists w', attemptBody env ns idx i w = (Val None, w') /\
    catalogOf (dbHolder w') (NamespaceString.db ns) (NamespaceString.toString ns)
      = Some (dropAllIndexes cat false) /\
    result w' = append (appendNumber (result w) "nIndexesWas" (numIndexesTotal cat))
                  "msg" (BString "non-_id indexes dropped for collection").
Proof.
  intros Hgate Hcat Hf Hstar Hok Hlog.
  destruct (catalogOf_Some _ _ _ _ Hcat) as (D & C & HD & HC & HCcat).
  past_gate Hgate.
  all: rewrite HD.
  all: match goal with
       | |- context [wrappedRun ?a ?b ?c ?d ?e ?f ?g] =>
           destruct (wrappedRun_wildcard a b c d c f g cat s Hcat Hf Hstar Hok)
             as (w2 & -> & Hd & Ho & Hu & Hr)
       end.
  all: cbn in *; rewrite Hlog; cbn; unfold endUnitOfWork, unlock; cbn.
  all: eexists; split; [reflexivity|]; cbn.
  all: by rewrite Hd, catalogOf_alterCatalog, Hcat, Hr.
Qed.

(** ** The retry loop *)

Lemma retry_on_conflict env ns idx fuel i w w1 :
  attemptBody env ns idx i w = (Throw WriteConflictException, w1) ->
  writeConflictRetryLoop (attemptBody env ns idx) (S fuel) i w =
  writeConflictRetryLoop (attemptBody env ns idx) fuel (S i)
    (setTrace (trace w1 ++ [EvWriteConflict i]) w1).
Proof. intros H. cbn. by rewrite H. Qed.

Lemma retry_leaves env ns idx fuel i w r w1 :
  attemptBody env ns idx i w = (r, w1) ->
  r <> Throw WriteConflictException ->
  writeConflictRetryLoop (attemptBody env ns idx) (S fuel) i w = Some (r, w1).
Proof.
  intros H Hr. cbn. rewrite H.
  destruct r as [a|[]]; done.
Qed.

Lemma retry_after_conflicts env ns idx k : forall fuel i w wk,
  afterConflicts env ns idx k i w = Some wk ->
  writeConflictRetryLoop (attemptBody env ns idx) (k + fuel) i w =
  writeConflictRetryLoop (attemptBody env ns idx) fuel (i + k) wk.
Proof.
  induction k as [|k IH]; intros fuel i w wk H; cbn in H.
  - simplify_eq. by rewrite Nat.add_0_r.
  - destruct (attemptBody env ns idx i w) as [[a|[]] w1] eqn:Hb; try discriminate.
    change (S k + fuel) with (S (k + fuel)).
    rewrite (retry_on_conflict _ _ _ _ _ _ _ Hb), (IH _ _ _ _ H).
    f_equal. lia.
Qed.

Lemma retry_inv env ns idx fuel : forall i w r w',
  writeConflictRetryLoop (attemptBody env ns idx) fuel i w = Some (r, w') ->
  exists k wk, k < fuel /\ afterConflicts env ns idx k i w = Some wk /\
    attemptBody env ns idx (i + k) wk = (r, w') /\
    r <> Throw WriteConflictException.
Proof.
  induction fuel as [|fuel IH]; intros i w r w' H; cbn in H; [discriminate|].
  destruct (attemptBody env ns idx i w) as [r1 w1] eqn:Hb.
  destruct r1 as [a|[]].
  - simplify_eq. exists 0, w. rewrite Nat.add_0_r. repeat split; [lia|done..].
  - apply IH in H as (k & wk & Hk & Hc & Hlast & Hne).
    exists (S k), wk. repeat split; [lia| |by rewrite <- Nat.add_succ_comm|done].
    cbn. by rewrite Hb.
  - simplify_eq. exists 0, w. rewrite Nat.add_0_r. repeat split; [lia|done..].
Qed.

Lemma executorEvents_elem exec e :
  executorEvents exec = true -> e ∈ exec ->
  (exists c, e = EvKillBuilds c) \/ isCatalogAccess e = true.
Proof.
  intros H Hin.
  assert (Hall : forall l, forallb isCatalogAccess l = true -> e ∈ l ->
                           isCatalogAccess e = true).
  { intros l Hl Hel. rewrite forallb_forall in Hl. apply Hl.
    by apply list_elem_of_In. }
  destruct exec as [|x rest]; [by apply elem_of_nil in Hin|].
  assert (Hx : (exists c, x = EvKillBuilds c) \/
               executorEvents (x :: rest) = forallb isCatalogAccess (x :: rest))
    by (destruct x; eauto).
  destruct Hx as [[c ->]|Hx].
  - apply elem_of_cons in Hin as [->|Hin]; [by eauto|].
    right. by apply (Hall rest).
  - right. apply (Hall (x :: rest)); [by rewrite <- Hx|done].
Qed.

Lemma executorEvents_no_commit exec :
  executorEvents exec = true -> EvCommit ∉ exec.
Proof.
  intros H Hin. destruct (executorEvents_elem _ _ H Hin) as [[c Hc]|Hc]; done.
Qed.

Lemma afterConflicts_frame env ns idx k : forall i w wk,
  afterConflicts env ns idx k i w = Some wk ->
  dbHolder wk = dbHolder w /\ oplog wk = oplog w /\
  extends (result w) (result wk) /\
  exists evs, trace wk = trace w ++ evs /\ EvCommit ∉ evs.
Proof.
  induction k as [|k IH]; intros i w wk H; cbn in H.
  - simplify_eq. repeat split; [apply extends_refl|].
    exists []. split; [by rewrite app_nil_r|apply not_elem_of_nil].
  - destruct (attemptBody env ns idx i w) as [[a|[]] w1] eqn:Hb; try discriminate.
    apply attemptBody_ends in Hb.
    apply IH in H as (Hd & Ho & Hx & evs & Ht & Hnc). cbn in *.
    inversion Hb as [| |exec r0 w0 Hgate Hcause Hexec Htr Hdb Hop Hu Hext]; subst.
    rewrite Hd, Ho. repeat split; [done..|by eapply extends_trans|].
    eexists. split.
    { rewrite Ht, Htr. rewrite <- !app_assoc. reflexivity. }
    pose proof (executorEvents_no_commit _ Hexec) as Hne.
    unfold lockPrefix, gateEvents, unlockSuffix.
    destruct (writesAreReplicated env); cbn.
    all: rewrite ?not_elem_of_cons, ?not_elem_of_app, ?not_elem_of_cons.
    all: repeat split; try done; apply not_elem_of_nil.
Qed.

(** ** The driver *)

Lemma dropIndexesFrom_leaves env ns idx fuel i w r w1 :
  attemptBody env ns idx i w = (r, w1) ->
  r <> Throw WriteConflictException ->
  dropIndexesFrom env i (S fuel) ns idx w = Some (returnOf r, w1).
Proof.
  intros Hb Hr. unfold dropIndexesFrom.
  by rewrite (retry_leaves _ _ _ _ _ _ _ _ Hb Hr).
Qed.

Lemma dropIndexes_first_attempt env ns idx fuel w r w1 :
  attemptBody env ns idx 0 w = (r, w1) ->
  r <> Throw WriteConflictException ->
  dropIndexes env (S fuel) ns idx w = Some (returnOf r, w1).
Proof. apply dropIndexesFrom_leaves. Qed.

Lemma dropIndexes_resolution_failure env ns idx fuel w cat s :
  userInitiatedWritesAndNotPrimary env 0 (NamespaceString.db ns) = false ->
  catalogOf (dbHolder w) (NamespaceString.db ns) (NamespaceString.toString ns)
    = Some cat ->
  resolutionFailure cat (getField idx "index") = Some s ->
  exists w', dropIndexes env (S fuel) ns idx w = Some (Returned s, w') /\
    dbHolder w' = dbHolder w /\ oplog w' = oplog w /\
    result w' = appendNumber (result w) "nIndexesWas" (numIndexesTotal cat).
Proof.
  intros Hgate Hcat Hres.
  destruct (attemptBody_resolution_failure _ _ _ 0 _ _ _ Hgate Hcat Hres)
    as (w' & Hb & Hrest).
  exists w'. split; [|done].
  by rewrite (dropIndexes_first_attempt _ _ _ _ _ _ _ Hb).
Qed.

Lemma dropIndexesFrom_inv env ns idx fuel i w o w' :
  dropIndexesFrom env i fuel ns idx w = Some (o, w') ->
  exists k wk r, k < fuel /\ afterConflicts env ns idx k i w = Some wk /\
    attemptBody env ns idx (i + k) wk = (r, w') /\
    r <> Throw WriteConflictException /\
    o = returnOf r.
Proof.
  unfold dropIndexesFrom. intros H.
  destruct (writeConflictRetryLoop _ _ _ _) as [[r w1]|] eqn:Hloop; [|done].
  apply retry_inv in Hloop as (k & wk & Hk & Hc & Hb & Hne).
  exists k, wk, r. by simplify_eq.
Qed.

Lemma dropIndexes_inv env ns idx fuel w o w' :
  dropIndexes env fuel ns idx w = Some (o, w') ->
  exists k wk r, k < fuel /\ afterConflicts env ns idx k 0 w = Some wk /\
    attemptBody env ns idx k wk = (r, w') /\
    r <> Throw WriteConflictException /\
    o = returnOf r.
Proof. exact (dropIndexesFrom_inv env ns idx fuel 0 w o w'). Qed.

Lemma attemptBody_count env ns idx i w cat r w' :
  userInitiatedWritesAndNotPrimary env i (NamespaceString.db ns) = false ->
  catalogOf (dbHolder w) (NamespaceString.db ns) (NamespaceString.toString ns)
    = Some cat ->
  attemptBody env ns idx i w = (r, w') ->
  extends (appendNumber (result w) "nIndexesWas" (numIndexesTotal cat)) (result w').
Proof.
  intros Hgate Hcat.
  destruct (catalogOf_Some _ _ _ _ Hcat) as (D & C & HD & HC & HCcat).
  past_gate Hgate.
  all: rewrite HD.
  all: match goal with
       | |- context [wrappedRun ?a ?b ?c ?d ?e ?f ?g] =>
           destruct (wrappedRun a b c d e f g) as [r1 w1] eqn:Hrun;
           pose proof (wrappedRun_count a b c d c f g r1 w1 cat Hcat Hrun) as Hx;
           apply wrappedRun_frame in Hrun as (Hu & _)
       end.
  all: intros H; cbn in *.
  all: destruct r1 as [a|e];
         [destruct (isOK a); cbn in H; [destruct (logAppends env i); cbn in H|]|];
         simplify_eq.
  all: unfold endUnitOfWork, unlock; cbn; rewrite ?Hu; cbn; done.
Qed.

(** ** Write conflicts on the wildcard path *)

Lemma wrappedRun_wildcard_conflict env i dbn ns d js w cat s :
  catalogOf (dbHolder w) d ns = Some cat ->
  getField js "index" = BString s ->
  c_str s = "*" ->
  storageEngine env i = StorageWriteConflict ->
  exists w', wrappedRun env i dbn ns (Some d) js w = (Throw WriteConflictException, w').
Proof.
  intros Hcat Hf Hstar Hconf.
  destruct (catalogOf_Some _ _ _ _ Hcat) as (D & C & HD & HC & <-).
  unfold_ops. unfold_m.
  destruct (quiet env); cbn; rewrite HC; cbn.
  all: rewrite Hf; cbn; rewrite Hstar; cbn; rewrite Hconf; cbn.
  all: by eexists.
Qed.

Lemma attemptBody_wildcard_conflict env ns idx i w cat s :
  userInitiatedWritesAndNotPrimary env i (NamespaceString.db ns) = false ->
  catalogOf (dbHolder w) (NamespaceString.db ns) (NamespaceString.toString ns)
    = Some cat ->
  getField idx "index" = BString s ->
  c_str s = "*" ->
  storageEngine env i = StorageWriteConflict ->
  exists w', attemptBody env ns idx i w = (Throw WriteConflictException, w') /\
             dbHolder w' = dbHolder w.
Proof.
  intros Hgate Hcat Hf Hstar Hconf.
  destruct (catalogOf_Some _ _ _ _ Hcat) as (D & C & HD & HC & HCcat).
  destruct (attemptBody env ns idx i w) as [r w'] eqn:Hb.
  assert (r = Throw WriteConflictException) as ->.
  { revert Hb. past_gate Hgate.
    all: rewrite HD.
    all: match goal with
         | |- context [wrappedRun ?a ?b ?c ?d ?e ?f ?g] =>
             destruct (wrappedRun_wildcard_conflict a b c d c f g cat s
                         Hcat Hf Hstar Hconf) as (w2 & ->)
         end.
    all: cbn; intros; by simplify_eq. }
  exists w'. split; [done|].
  apply attemptBody_ends in Hb. by inversion Hb.
Qed.

Lemma wildcard_conflicts env ns idx s cat k : forall i w,
  getField idx "index" = BString s ->
  c_str s = "*" ->
  catalogOf (dbHolder w) (NamespaceString.db ns) (NamespaceString.toString ns)
    = Some cat ->
  (forall j, i <= j < i + k ->
     userInitiatedWritesAndNotPrimary env j (NamespaceString.db ns) = false /\
     storageEngine env j = StorageWriteConflict) ->
  exists wk, afterConflicts env ns idx k i w = Some wk.
Proof.
  induction k as [|k IH]; intros i w Hf Hstar Hcat Hall; cbn; [by eexists|].
  destruct (Hall i ltac:(lia)) as [Hgate Hconf].
  destruct (attemptBody_wildcard_conflict _ _ _ _ _ _ _ Hgate Hcat Hf Hstar Hconf)
    as (w1 & -> & Hd).
  apply IH; [done..| |].
  - cbn. by rewrite Hd.
  - intros j Hj. apply Hall. lia.
Qed.

(** However many write conflicts there are, the loop goes on: with [k]
    conflicts in a row the wildcard drop of the example is still being
    retried after [k] passes and succeeds on pass [k + 1]. *)
Lemma retries_unbounded k :
  dropIndexes (Example.contended k) k Example.ns (Example.cmd (BString "*"))
              Example.w0 = None /\
  exists w',
    dropIndexes (Example.contended k) (S k) Example.ns (Example.cmd (BString "*"))
                Example.w0 = Some (Returned Status_OK, w') /\
    catalogOf (dbHolder w') "test" "test.c" = Some [Example.id_].
Proof.
  destruct (wildcard_conflicts (Example.contended k) Example.ns
              (Example.cmd (BString "*")) "*"
              [Example.id_; Example.a_1; Example.b_1] k 0 Example.w0)
    as (wk & Hc); [done..| |].
  { intros j Hj. split; [done|]. cbn. rewrite decide_True by lia. done. }
  pose proof (afterConflicts_frame _ _ _ _ _ _ _ Hc) as (Hd & _).
  unfold dropIndexes, dropIndexesFrom. split.
  - replace k with (k + 0) at 2 by lia.
    by rewrite (retry_after_conflicts _ _ _ _ _ _ _ _ Hc).
  - replace (S k) with (k + 1) by lia.
    rewrite (retry_after_conflicts _ _ _ _ _ _ _ _ Hc).
    destruct (attemptBody_wildcard (Example.contended k) Example.ns
                (Example.cmd (BString "*")) k wk
                [Example.id_; Example.a_1; Example.b_1] "*")
      as (w' & Hb & Hcat & _); try done.
    + by rewrite Hd.
    + cbn. rewrite decide_False by lia. done.
    + exists w'. by rewrite (retry_leaves _ _ _ _ _ _ _ _ Hb).
Qed.

(** ** What the refused selectors give, at both levels *)

Lemma resolution_failure_answers env ns idx w cat s :
  catalogOf (dbHolder w) (NamespaceString.db ns) (NamespaceString.toString ns)
    = Some cat ->
  resolutionFailure cat (getField idx "index") = Some s ->
  (forall attempt,
     exists w',
       wrappedRun env attempt (NamespaceString.db ns) (NamespaceString.toString ns)
                  (Some (NamespaceString.db ns)) idx w = (Val s, w') /\
       dbHolder w' = dbHolder w /\
       result w' = appendNumber (result w) "nIndexesWas" (numIndexesTotal cat))
  /\ (forall fuel,
     userInitiatedWritesAndNotPrimary env 0 (NamespaceString.db ns) = false ->
     exists w',
       dropIndexes env (S fuel) ns idx w = Some (Returned s, w') /\
       dbHolder w' = dbHolder w /\
       result w' = appendNumber (result w) "nIndexesWas" (numIndexesTotal cat)).
Proof.
  intros Hcat Hres. split.
  - intros attempt.
    destruct (wrappedRun_resolution_failure env attempt (NamespaceString.db ns)
                _ _ _ _ _ _ Hcat Hres) as (w' & Hrun & Hd & _ & _ & Hr).
    by exists w'.
  - intros fuel Hgate.
    destruct (dropIndexes_resolution_failure _ _ _ fuel _ _ _ Hgate Hcat Hres)
      as (w' & Hrun & Hd & _ & Hr).
    by exists w'.
Qed.

(** ** The examples of the specification *)

Example drop_by_name :
  exists w',
    dropIndexes Example.primary 1 Example.ns (Example.cmd (BString "a_1")) Example.w0
      = Some (Returned Status_OK, w') /\
    catalogOf (dbHolder w') "test" "test.c" = Some [Example.id_; Example.b_1] /\
    result w' = BSONField "nIndexesWas" (BNumber 3) BSONEmpty.
Proof. eexists. split; [vm_compute; reflexivity|]. by vm_compute. Qed.

Example drop_by_key_pattern :
  exists w',
    dropIndexes Example.primary 1 Example.ns
        (Example.cmd (BObject (Example.key "b"))) Example.w0
      = Some (Returned Status_OK, w') /\
    catalogOf (dbHolder w') "test" "test.c" = Some [Example.id_; Example.a_1].
Proof. eexists. split; [vm_compute; reflexivity|]. by vm_compute. Qed.

Example drop_on_secondary :
  exists w',
    dropIndexes Example.secondary 1 Example.ns (Example.cmd (BString "a_1")) Example.w0
      = Some (Returned (notPrimaryStatus Example.ns), w') /\
    dbHolder w' = dbHolder Example.w0 /\ result w' = BSONEmpty.
Proof. eexists. split; [vm_compute; reflexivity|]. by vm_compute. Qed.

Example wildcard_on_id_only :
  exists w',
    dropIndexes Example.primary 1 Example.ns (Example.cmd (BString "*"))
                (Example.world [Example.id_])
      = Some (Returned Status_OK, w') /\
    catalogOf (dbHolder w') "test" "test.c" = Some [Example.id_] /\
    getField (result w') "nIndexesWas" = BNumber 1.
Proof. eexists. split; [vm_compute; reflexivity|]. by vm_compute. Qed.

(** * The claims *)

(** ** The executor, and what the caller sees of it *)

(** C1: on a catalog of N indexes that has its one _id index, the
    wildcard selector leaves exactly the _id index; the result carries
    nIndexesWas = N and the confirmation message, also when there was no
    other index to drop. This is the attempt that is let through to
    [wrappedRun] and whose catalog write and log append go through. *)
Theorem dropIndexes_wildcard env fuel ns idx w cat s :
  catalogOf (dbHolder w) (NamespaceString.db ns) (NamespaceString.toString ns)
    = Some cat ->
  hasOneIdIndex cat = true ->
  getField idx "index" = BString s ->
  c_str s = "*" ->
  userInitiatedWritesAndNotPrimary env 0 (NamespaceString.db ns) = false ->
  storageEngine env 0 = StorageOk ->
  logAppends env 0 = true ->
  hasField (result w) "nIndexesWas" = false ->
  hasField (result w) "msg" = false ->
  exists w' pk,
    dropIndexes env (S fuel) ns idx w = Some (Returned Status_OK, w') /\
    catalogOf (dbHolder w') (NamespaceString.db ns) (NamespaceString.toString ns)
      = Some [pk] /\
    pk ∈ cat /\ isIdIndex pk = true /\
    getField (result w') "nIndexesWas" = BNumber (Z.of_nat (length cat)) /\
    getField (result w') "msg" = BString "non-_id indexes dropped for collection".
Proof.
  intros Hcat Hone Hf Hstar Hgate Hok Hlog Hn Hm.
  destruct (attemptBody_wildcard _ _ _ 0 _ _ _ Hgate Hcat Hf Hstar Hok Hlog)
    as (w' & Hb & Hcat' & Hres).
  destruct (dropAllIndexes_keeps_id _ Hone) as (pk & Hpk & Hin & Hid).
  exists w', pk. rewrite (dropIndexes_first_attempt _ _ _ _ _ _ _ Hb) by done.
  rewrite Hcat', Hpk, Hres. repeat split; try done.
  - rewrite getField_append_ne by done. by apply getField_append_fresh.
  - apply getField_append_fresh. unfold appendNumber.
    by rewrite hasField_append_ne.
Qed.

Lemma dropIndexes_wildcard_witness :
  (exists w',
     dropIndexes Example.primary 1 Example.ns (Example.cmd (BString "*")) Example.w0
       = Some (Returned Status_OK, w') /\
     catalogOf (dbHolder w') "test" "test.c" = Some [Example.id_] /\
     getField (result w') "nIndexesWas" = BNumber 3)
  /\ (exists w',
     dropIndexes Example.primary 1 Example.ns (Example.cmd (BString "*"))
                 (Example.world [Example.id_])
       = Some (Returned Status_OK, w') /\
     catalogOf (dbHolder w') "test" "test.c" = Some [Example.id_] /\
     getField (result w') "nIndexesWas" = BNumber 1).
Proof.
  split.
  - destruct (dropIndexes_wildcard Example.primary 0 Example.ns
                (Example.cmd (BString "*")) Example.w0
                [Example.id_; Example.a_1; Example.b_1] "*")
      as (w' & pk & Hrun & Hcat & Hin & Hid & Hn & Hm);
      try reflexivity.
    exists w'. split; [exact Hrun|]. split; [|exact Hn].
    vm_compute in Hrun. injection Hrun as <-. reflexivity.
  - destruct (dropIndexes_wildcard Example.primary 0 Example.ns
                (Example.cmd (BString "*")) (Example.world [Example.id_])
                [Example.id_] "*")
      as (w' & pk & Hrun & Hcat & Hin & Hid & Hn & Hm);
      try reflexivity.
    exists w'. split; [exact Hrun|]. split; [|exact Hn].
    vm_compute in Hrun. injection Hrun as <-. reflexivity.
Defined.

(** C2: a name or a key pattern that resolves to the _id index is refused
    with InvalidOptions and no catalog changes. [wrappedRun] answers so on
    every existing collection; it is what the caller of [dropIndexes] gets
    whenever the attempt is let through to [wrappedRun]. *)
Theorem dropIndexes_refuses_id_index env ns idx w cat desc pk :
  catalogOf (dbHolder w) (NamespaceString.db ns) (NamespaceString.toString ns)
    = Some cat ->
  isIdIndex pk = true ->
  (exists s, getField idx "index" = BString s /\ c_str s <> "*" /\
             findIndexByName cat (c_str s) = Some (desc, pk))
  \/ (exists o, getField idx "index" = BObject o /\
                findIndexByKeyPattern cat o = Some (desc, pk)) ->
  (forall attempt,
     exists w',
       wrappedRun env attempt (NamespaceString.db ns) (NamespaceString.toString ns)
                  (Some (NamespaceString.db ns)) idx w =
         (Val (mkStatus ErrorCodes.InvalidOptions "cannot drop _id index"), w') /\
       dbHolder w' = dbHolder w)
  /\ (forall fuel,
     userInitiatedWritesAndNotPrimary env 0 (NamespaceString.db ns) = false ->
     exists w',
       dropIndexes env (S fuel) ns idx w =
         Some (Returned (mkStatus ErrorCodes.InvalidOptions "cannot drop _id index"),
               w') /\
       dbHolder w' = dbHolder w).
Proof.
  intros Hcat Hid Hsel.
  assert (Hres : resolutionFailure cat (getField idx "index")
                 = Some (mkStatus ErrorCodes.InvalidOptions "cannot drop _id index")).
  { destruct Hsel as [(s & -> & Hne & Hfind)|(o & -> & Hfind)]; cbn.
    - rewrite decide_False by done. by rewrite Hfind, Hid.
    - by rewrite Hfind, Hid. }
  destruct (resolution_failure_answers env ns idx w cat _ Hcat Hres) as [Hexec Hdrv].
  split.
  - intros attempt. destruct (Hexec attempt) as (w' & ? & ? & _). by exists w'.
  - intros fuel Hgate. destruct (Hdrv fuel Hgate) as (w' & ? & ? & _). by exists w'.
Qed.

Lemma dropIndexes_refuses_id_index_witness :
  (exists w',
     wrappedRun Example.primary 0 "test" "test.c" (Some "test")
                (Example.cmd (BString "_id_")) Example.w0 =
       (Val (mkStatus ErrorCodes.InvalidOptions "cannot drop _id index"), w') /\
     dbHolder w' = dbHolder Example.w0)
  /\ (exists w',
     dropIndexes Example.primary 1 Example.ns
         (Example.cmd (BObject (Example.key "_id"))) Example.w0
       = Some (Returned (mkStatus ErrorCodes.InvalidOptions "cannot drop _id index"),
               w') /\
     dbHolder w' = dbHolder Example.w0).
Proof.
  split.
  - destruct (dropIndexes_refuses_id_index Example.primary Example.ns
                (Example.cmd (BString "_id_")) Example.w0
                [Example.id_; Example.a_1; Example.b_1] 0 Example.id_)
      as [Hexec _]; [reflexivity|reflexivity| |exact (Hexec 0)].
    left. exists "_id_". repeat split. discriminate.
  - destruct (dropIndexes_refuses_id_index Example.primary Example.ns
                (Example.cmd (BObject (Example.key "_id"))) Example.w0
                [Example.id_; Example.a_1; Example.b_1] 0 Example.id_)
      as [_ Hdrv]; [reflexivity|reflexivity| |apply (Hdrv 0); reflexivity].
    right. exists (Example.key "_id"). repeat split.
Defined.

(** C3: when the database or the collection does not exist the answer is
    NamespaceNotFound, for every selector, and nothing changes: not the
    catalogs, the builds in progress, the log or the result builder.
    [wrappedRun] answers so before it does anything else; it is what the
    caller of [dropIndexes] gets whenever the attempt is let through to
    [wrappedRun]. *)
Theorem dropIndexes_NamespaceNotFound env ns idx w :
  dbHolder w !! NamespaceString.db ns = None
  \/ (exists D, dbHolder w !! NamespaceString.db ns = Some D /\
                getCollection D (NamespaceString.toString ns) = None) ->
  (forall attempt db,
     db = None \/ db = Some (NamespaceString.db ns) ->
     exists w',
       wrappedRun env attempt (NamespaceString.db ns) (NamespaceString.toString ns)
                  db idx w =
         (Val (mkStatus ErrorCodes.NamespaceNotFound "ns not found"), w') /\
       dbHolder w' = dbHolder w /\ inProgress w' = inProgress w /\
       oplog w' = oplog w /\ result w' = result w /\ trace w' = trace w)
  /\ (forall fuel,
     userInitiatedWritesAndNotPrimary env 0 (NamespaceString.db ns) = false ->
     exists w',
       dropIndexes env (S fuel) ns idx w =
         Some (Returned (mkStatus ErrorCodes.NamespaceNotFound "ns not found"), w') /\
       dbHolder w' = dbHolder w /\ inProgress w' = inProgress w /\
       oplog w' = oplog w /\ result w' = result w).
Proof.
  intros Habs.
  assert (Hnone : collectionOf (dbHolder w) (NamespaceString.db ns)
                    (NamespaceString.toString ns) = None).
  { unfold collectionOf. destruct Habs as [->|(D & -> & HD)]; done. }
  split.
  - intros attempt db Hdb.
    destruct (wrappedRun_absent env attempt (NamespaceString.db ns)
                (NamespaceString.toString ns) db idx w)
      as (w' & Hrun & Hd & Ho & Hp & Hr & _ & Ht).
    + by destruct Hdb as [->| ->].
    + by exists w'.
  - intros fuel Hgate.
    destruct (attemptBody_absent _ _ idx 0 _ Hgate Hnone)
      as (w' & Hb & Hd & Ho & Hp & Hr).
    exists w'. by rewrite (dropIndexes_first_attempt _ _ _ _ _ _ _ Hb).
Qed.

Lemma dropIndexes_NamespaceNotFound_witness :
  (exists w',
     wrappedRun Example.primary 0 "nodb" "nodb.c" None
                (Example.cmd (BString "*")) Example.w0 =
       (Val (mkStatus ErrorCodes.NamespaceNotFound "ns not found"), w') /\
     dbHolder w' = dbHolder Example.w0)
  /\ (exists w',
     dropIndexes Example.primary 1 (NamespaceString.mk "test" "nope")
         (Example.cmd (BString "a_1")) Example.w0 =
       Some (Returned (mkStatus ErrorCodes.NamespaceNotFound "ns not found"), w') /\
     dbHolder w' = dbHolder Example.w0 /\ inProgress w' = inProgress Example.w0 /\
     oplog w' = oplog Example.w0 /\ result w' = result Example.w0).
Proof.
  split.
  - destruct (dropIndexes_NamespaceNotFound Example.primary
                (NamespaceString.mk "nodb" "c") (Example.cmd (BString "*"))
                Example.w0) as [Hexec _]; [left; reflexivity|].
    destruct (Hexec 0 None) as (w' & Hrun & Hd & _); [left; reflexivity|].
    exists w'. split; [exact Hrun|exact Hd].
  - destruct (dropIndexes_NamespaceNotFound Example.primary
                (NamespaceString.mk "test" "nope") (Example.cmd (BString "a_1"))
                Example.w0) as [_ Hdrv].
    + right. eexists. split; reflexivity.
    + apply (Hdrv 0). reflexivity.
Defined.

(** C4: an index name the catalog does not have gives IndexNotFound with
    the name in the message; a key pattern no index has gives
    InvalidOptions with the pattern in the message. The catalogs stay as
    they were. [wrappedRun] answers so on every existing collection; it is
    what the caller of [dropIndexes] gets whenever the attempt is let
    through to [wrappedRun]. *)
Theorem dropIndexes_unknown_index env ns idx w cat answer :
  catalogOf (dbHolder w) (NamespaceString.db ns) (NamespaceString.toString ns)
    = Some cat ->
  (exists s,
     getField idx "index" = BString s /\ c_str s <> "*" /\
     Forall (fun d => indexName d <> c_str s) cat /\
     answer = mkStatus ErrorCodes.IndexNotFound
                ("index not found with name [" +:+ c_str s +:+ "]"))
  \/ (exists o,
     getField idx "index" = BObject o /\
     Forall (fun d => keyPattern d <> o) cat /\
     answer = mkStatus ErrorCodes.InvalidOptions
                ("can't find index with key: " +:+ toString o)) ->
  (forall attempt,
     exists w',
       wrappedRun env attempt (NamespaceString.db ns) (NamespaceString.toString ns)
                  (Some (NamespaceString.db ns)) idx w = (Val answer, w') /\
       dbHolder w' = dbHolder w)
  /\ (forall fuel,
     userInitiatedWritesAndNotPrimary env 0 (NamespaceString.db ns) = false ->
     exists w',
       dropIndexes env (S fuel) ns idx w = Some (Returned answer, w') /\
       dbHolder w' = dbHolder w).
Proof.
  intros Hcat Hsel.
  assert (Hres : resolutionFailure cat (getField idx "index") = Some answer).
  { destruct Hsel as [(s & -> & Hne & Hall & ->)|(o & -> & Hall & ->)]; cbn.
    - rewrite decide_False by done.
      unfold findIndexByName. by rewrite (proj2 (list_find_None _ _) Hall).
    - unfold findIndexByKeyPattern. by rewrite (proj2 (list_find_None _ _) Hall). }
  destruct (resolution_failure_answers env ns idx w cat _ Hcat Hres) as [Hexec Hdrv].
  split.
  - intros attempt. destruct (Hexec attempt) as (w' & ? & ? & _). by exists w'.
  - intros fuel Hgate. destruct (Hdrv fuel Hgate) as (w' & ? & ? & _). by exists w'.
Qed.

Lemma dropIndexes_unknown_index_witness :
  (exists w',
     dropIndexes Example.primary 1 Example.ns (Example.cmd (BString "zzz")) Example.w0
       = Some (Returned (mkStatus ErrorCodes.IndexNotFound
                           "index not found with name [zzz]"), w') /\
     dbHolder w' = dbHolder Example.w0)
  /\ (exists w',
     dropIndexes Example.primary 1 Example.ns
         (Example.cmd (BObject (Example.key "c"))) Example.w0
       = Some (Returned (mkStatus ErrorCodes.InvalidOptions
                           "can't find index with key: { c: 1 }"), w') /\
     dbHolder w' = dbHolder Example.w0).
Proof.
  split.
  - destruct (dropIndexes_unknown_index Example.primary Example.ns
                (Example.cmd (BString "zzz")) Example.w0
                [Example.id_; Example.a_1; Example.b_1]
                (mkStatus ErrorCodes.IndexNotFound "index not found with name [zzz]"))
      as [_ Hdrv]; [reflexivity| |apply (Hdrv 0); reflexivity].
    left. exists "zzz". repeat split; [discriminate|].
    repeat constructor; discriminate.
  - destruct (dropIndexes_unknown_index Example.primary Example.ns
                (Example.cmd (BObject (Example.key "c"))) Example.w0
                [Example.id_; Example.a_1; Example.b_1]
                (mkStatus ErrorCodes.InvalidOptions
                   "can't find index with key: { c: 1 }"))
      as [_ Hdrv]; [reflexivity| |apply (Hdrv 0); reflexivity].
    right. exists (Example.key "c"). repeat split.
    repeat constructor; discriminate.
Defined.

(** C8: a selector that is neither a string nor an object gives
    IndexNotFound, "invalid index name spec", and removes nothing.
    [wrappedRun] answers so on every existing collection; it is what the
    caller of [dropIndexes] gets whenever the attempt is let through to
    [wrappedRun]. *)
Theorem dropIndexes_invalid_selector env ns idx w cat :
  catalogOf (dbHolder w) (NamespaceString.db ns) (NamespaceString.toString ns)
    = Some cat ->
  type (getField idx "index") <> BSONType.String ->
  type (getField idx "index") <> BSONType.Object ->
  (forall attempt,
     exists w',
       wrappedRun env attempt (NamespaceString.db ns) (NamespaceString.toString ns)
                  (Some (NamespaceString.db ns)) idx w =
         (Val (mkStatus ErrorCodes.IndexNotFound "invalid index name spec"), w') /\
       dbHolder w' = dbHolder w)
  /\ (forall fuel,
     userInitiatedWritesAndNotPrimary env 0 (NamespaceString.db ns) = false ->
     exists w',
       dropIndexes env (S fuel) ns idx w =
         Some (Returned (mkStatus ErrorCodes.IndexNotFound "invalid index name spec"),
               w') /\
       dbHolder w' = dbHolder w).
Proof.
  intros Hcat Hs Ho.
  assert (Hres : resolutionFailure cat (getField idx "index")
                 = Some (mkStatus ErrorCodes.IndexNotFound "invalid index name spec"))
    by (by destruct (getField idx "index")).
  destruct (resolution_failure_answers env ns idx w cat _ Hcat Hres) as [Hexec Hdrv].
  split.
  - intros attempt. destruct (Hexec attempt) as (w' & ? & ? & _). by exists w'.
  - intros fuel Hgate. destruct (Hdrv fuel Hgate) as (w' & ? & ? & _). by exists w'.
Qed.

Lemma dropIndexes_invalid_selector_witness :
  (exists w',
     wrappedRun Example.primary 0 "test" "test.c" (Some "test")
                (Example.cmd (BNumber 1)) Example.w0 =
       (Val (mkStatus ErrorCodes.IndexNotFound "invalid index name spec"), w') /\
     dbHolder w' = dbHolder Example.w0)
  /\ (exists w',
     dropIndexes Example.primary 1 Example.ns
         (BSONField "dropIndexes" (BString "c") BSONEmpty) Example.w0 =
       Some (Returned (mkStatus ErrorCodes.IndexNotFound "invalid index name spec"),
             w') /\
     dbHolder w' = dbHolder Example.w0).
Proof.
  split.
  - destruct (dropIndexes_invalid_selector Example.primary Example.ns
                (Example.cmd (BNumber 1)) Example.w0
                [Example.id_; Example.a_1; Example.b_1])
      as [Hexec _]; [reflexivity|discriminate|discriminate|exact (Hexec 0)].
  - destruct (dropIndexes_invalid_selector Example.primary Example.ns
                (BSONField "dropIndexes" (BString "c") BSONEmpty) Example.w0
                [Example.id_; Example.a_1; Example.b_1])
      as [_ Hdrv]; [reflexivity|discriminate|discriminate|].
    apply (Hdrv 0). reflexivity.
Defined.

(** C10: on an existing collection the prior index count goes into the
    result before the selector is looked at. Whatever [wrappedRun] then
    does, and however [dropIndexes] ends once its first attempt is let
    through to [wrappedRun], the result carries nIndexesWas; the selectors
    that are refused (unknown name, unmatched pattern, _id index,
    unrecognised form) return IndexNotFound or InvalidOptions with the
    count as the one field added. *)
Theorem nIndexesWas_written_first env ns idx w cat :
  catalogOf (dbHolder w) (NamespaceString.db ns) (NamespaceString.toString ns)
    = Some cat ->
  hasField (result w) "nIndexesWas" = false ->
  (forall attempt r w',
     wrappedRun env attempt (NamespaceString.db ns) (NamespaceString.toString ns)
                (Some (NamespaceString.db ns)) idx w = (r, w') ->
     getField (result w') "nIndexesWas" = BNumber (Z.of_nat (length cat)))
  /\ (forall fuel o w',
     userInitiatedWritesAndNotPrimary env 0 (NamespaceString.db ns) = false ->
     dropIndexes env fuel ns idx w = Some (o, w') ->
     getField (result w') "nIndexesWas" = BNumber (Z.of_nat (length cat)))
  /\ (forall s,
     resolutionFailure cat (getField idx "index") = Some s ->
     (code s = ErrorCodes.IndexNotFound \/ code s = ErrorCodes.InvalidOptions) /\
     (forall attempt,
        exists w',
          wrappedRun env attempt (NamespaceString.db ns)
                     (NamespaceString.toString ns)
                     (Some (NamespaceString.db ns)) idx w = (Val s, w') /\
          result w' = appendNumber (result w) "nIndexesWas" (length cat)) /\
     (forall fuel,
        userInitiatedWritesAndNotPrimary env 0 (NamespaceString.db ns) = false ->
        exists w',
          dropIndexes env (S fuel) ns idx w = Some (Returned s, w') /\
          result w' = appendNumber (result w) "nIndexesWas" (length cat))).
Proof.
  intros Hcat Hfresh.
  assert (Hcarried : forall b,
            extends (appendNumber (result w) "nIndexesWas" (numIndexesTotal cat)) b ->
            getField b "nIndexesWas" = BNumber (Z.of_nat (length cat))).
  { intros b Hx. rewrite (getField_extends _ _ _ (hasField_append _ _ _) Hx).
    by apply getField_append_fresh. }
  split; [|split].
  - intros attempt r w' Hrun. apply Hcarried. by eapply wrappedRun_count.
  - intros fuel o w' Hgate Hrun. apply Hcarried.
    apply dropIndexes_inv in Hrun as (k & wk & r & _ & Hc & Hb & _ & _).
    destruct k as [|k]; cbn in Hc.
    + simplify_eq. exact (attemptBody_count _ _ _ _ _ _ _ _ Hgate Hcat Hb).
    + destruct (attemptBody env ns idx 0 w) as [[a|[]] w1] eqn:Hb0;
        try discriminate.
      pose proof (attemptBody_count _ _ _ _ _ _ _ _ Hgate Hcat Hb0) as Hx0.
      apply afterConflicts_frame in Hc as (_ & _ & Hx & _). cbn in Hx.
      apply attemptBody_ends in Hb.
      assert (Hx1 : extends (result wk) (result w'))
        by (inversion Hb; subst; cbn; first [done | apply extends_refl]).
      exact (extends_trans _ _ _ Hx0 (extends_trans _ _ _ Hx Hx1)).
  - intros s Hres.
    destruct (resolution_failure_answers env ns idx w cat _ Hcat Hres)
      as [Hexec Hdrv].
    split; [|split].
    + unfold resolutionFailure in Hres.
      repeat case_match; simplify_eq; cbn; auto.
    + intros attempt. destruct (Hexec attempt) as (w' & ? & _ & ?). by exists w'.
    + intros fuel Hgate. destruct (Hdrv fuel Hgate) as (w' & ? & _ & ?).
      by exists w'.
Qed.

Lemma nIndexesWas_written_first_witness :
  (exists w',
     dropIndexes (Example.contended 2) 3 Example.ns
         (Example.cmd (BString "a_1")) Example.w0 = Some (Returned Status_OK, w') /\
     getField (result w') "nIndexesWas" = BNumber 3)
  /\ (exists w',
     dropIndexes Example.primary 1 Example.ns (Example.cmd (BString "_id_")) Example.w0
       = Some (Returned (mkStatus ErrorCodes.InvalidOptions "cannot drop _id index"),
               w') /\
     result w' = BSONField "nIndexesWas" (BNumber 3) BSONEmpty).
Proof.
  split.
  - destruct (nIndexesWas_written_first (Example.contended 2) Example.ns
                (Example.cmd (BString "a_1")) Example.w0
                [Example.id_; Example.a_1; Example.b_1])
      as (_ & Hany & _); [reflexivity|reflexivity|].
    eexists. split; [vm_compute; reflexivity|].
    apply (Hany 3 (Returned Status_OK)); [reflexivity|].
    vm_compute. reflexivity.
  - destruct (nIndexesWas_written_first Example.primary Example.ns
                (Example.cmd (BString "_id_")) Example.w0
                [Example.id_; Example.a_1; Example.b_1])
      as (_ & _ & Hrefused); [reflexivity|reflexivity|].
    destruct (Hrefused (mkStatus ErrorCodes.InvalidOptions "cannot drop _id index"))
      as (_ & _ & Hdrv); [reflexivity|].
    apply (Hdrv 0). reflexivity.
Defined.

(** ** The driver: retries, replication check, log and locks *)

(** C6: whenever the writes are replicated and the node cannot accept
    writes for the database, the attempt answers NotMaster, whatever the
    selector. The question is put again on every pass: after any number
    of write conflicts the pass that finds the node not primary ends the
    operation, having added nothing but its lock and check events (no
    catalog access, no cancelled build, no result field). *)
Theorem gate_checked_every_attempt env ns idx k fuel w wk :
  afterConflicts env ns idx k 0 w = Some wk ->
  userInitiatedWritesAndNotPrimary env k (NamespaceString.db ns) = true ->
  dropIndexes env (k + S fuel) ns idx w =
    Some (Returned (notPrimaryStatus ns),
          setTrace (trace wk ++ lockPrefix (NamespaceString.db ns)
                      ++ gateEvents env (NamespaceString.db ns)
                      ++ unlockSuffix (NamespaceString.db ns)) wk) /\
  dbHolder wk = dbHolder w /\ oplog wk = oplog w /\
  forallb (fun e => negb (isCatalogAccess e))
          (lockPrefix (NamespaceString.db ns)
             ++ gateEvents env (NamespaceString.db ns)
             ++ unlockSuffix (NamespaceString.db ns)) = true.
Proof.
  intros Hc Hgate.
  pose proof (attemptBody_rejected env ns idx k wk Hgate) as Hb.
  split.
  - unfold dropIndexes, dropIndexesFrom.
    rewrite (retry_after_conflicts _ _ _ _ _ _ _ _ Hc).
    by rewrite (retry_leaves _ _ _ _ _ _ _ _ Hb).
  - apply afterConflicts_frame in Hc as (Hd & Ho & _).
    repeat split; [done..|].
    unfold gateEvents. by destruct (writesAreReplicated env).
Qed.

Lemma gate_checked_every_attempt_witness :
  exists wk,
    afterConflicts Example.steppingDown Example.ns (Example.cmd (BString "a_1"))
                   1 0 Example.w0 = Some wk /\
    userInitiatedWritesAndNotPrimary Example.steppingDown 1 "test" = true /\
    dropIndexes Example.steppingDown (1 + 1) Example.ns (Example.cmd (BString "a_1"))
                Example.w0 =
      Some (Returned (notPrimaryStatus Example.ns),
            setTrace (trace wk ++ lockPrefix "test"
                        ++ gateEvents Example.steppingDown "test"
                        ++ unlockSuffix "test") wk) /\
    dbHolder wk = dbHolder Example.w0.
Proof.
  eexists. split; [vm_compute; reflexivity|]. split; [reflexivity|].
  destruct (gate_checked_every_attempt Example.steppingDown Example.ns
              (Example.cmd (BString "a_1")) 1 0 Example.w0 _
              (ltac:(vm_compute; reflexivity)) eq_refl)
    as (Hrun & Hd & _).
  split; [exact Hrun|exact Hd].
Defined.

(** C7: the operation reports success only after the log entry was
    appended and the unit of work committed, in that order, and commits
    once. In every other outcome nothing was committed and the catalogs
    and the log are as before the call; a failed log append is such an
    outcome and reaches the caller as a failure. *)
Theorem logged_before_commit env ns idx fuel w o w' :
  dropIndexes env fuel ns idx w = Some (o, w') ->
  match o with
  | Returned s =>
      if isOK s then committedAfterLogging env ns idx w w'
      else nothingCommitted w w'
  | Uncaught e =>
      e = DurabilityFailure /\ (exists k, logAppends env k = false) /\
      nothingCommitted w w'
  end.
Proof.
  intros Hrun.
  apply dropIndexes_inv in Hrun as (k & wk & r & _ & Hc & Hb & Hne & ->).
  apply afterConflicts_frame in Hc as (Hd & Ho & _ & evs & Ht & Hnc).
  apply attemptBody_ends in Hb.
  inversion Hb as [Hgate
                  |exec w1 Hgate Hlog Hexec Htr Hop Hu Hx
                  |exec r1 w1 Hgate Hcause Hexec Htr Hdb Hop Hu Hx]; subst; cbn.
  - repeat split; [done..|].
    eexists. split; [rewrite Ht, <- app_assoc; reflexivity|].
    unfold lockPrefix, gateEvents, unlockSuffix.
    destruct (writesAreReplicated env); cbn.
    all: repeat (rewrite not_elem_of_app || rewrite not_elem_of_cons).
    all: repeat split; try done; apply not_elem_of_nil.
  - exists (evs ++ lockPrefix (NamespaceString.db ns)
              ++ gateEvents env (NamespaceString.db ns)
              ++ EvBeginUnitOfWork :: exec).
    split; [|split; [|split]].
    + rewrite Htr, Ht. unfold unlockSuffix.
      repeat (rewrite <- app_assoc; cbn). reflexivity.
    + pose proof (executorEvents_no_commit _ Hexec).
      unfold lockPrefix, gateEvents.
      destruct (writesAreReplicated env); cbn.
      all: repeat (rewrite not_elem_of_app || rewrite not_elem_of_cons).
      all: repeat split; try done; apply not_elem_of_nil.
    + by rewrite Hop, Ho.
    + by exists k.
  - assert (Hnothing : nothingCommitted w w').
    { repeat split; [congruence..|].
      eexists. split; [rewrite Htr, Ht, <- app_assoc; reflexivity|].
      pose proof (executorEvents_no_commit _ Hexec).
      unfold lockPrefix, gateEvents, unlockSuffix.
      destruct (writesAreReplicated env); cbn.
      all: repeat (rewrite not_elem_of_app || rewrite not_elem_of_cons).
      all: repeat split; try done; apply not_elem_of_nil. }
    destruct r as [[s|]|[]]; cbn in *; try done.
    + by rewrite Hcause.
    + eauto.
Qed.

Lemma logged_before_commit_witness :
  (exists w',
     dropIndexes Example.primary 1 Example.ns (Example.cmd (BString "a_1")) Example.w0
       = Some (Returned Status_OK, w') /\
     committedAfterLogging Example.primary Example.ns (Example.cmd (BString "a_1"))
                           Example.w0 w')
  /\ (exists w',
     dropIndexes Example.logFails 1 Example.ns (Example.cmd (BString "a_1")) Example.w0
       = Some (Uncaught DurabilityFailure, w') /\
     EvCatalogDrop "test.c" ∈ trace w' /\ EvRollback ∈ trace w' /\
     catalogOf (dbHolder w') "test" "test.c"
       = Some [Example.id_; Example.a_1; Example.b_1] /\
     nothingCommitted Example.w0 w').
Proof.
  split.
  - eexists. split; [vm_compute; reflexivity|].
    apply (logged_before_commit Example.primary Example.ns
             (Example.cmd (BString "a_1")) 1 Example.w0 (Returned Status_OK)).
    vm_compute. reflexivity.
  - eexists. split; [vm_compute; reflexivity|].
    split; [cbn; rewrite !elem_of_cons; tauto|].
    split; [cbn; rewrite !elem_of_cons; tauto|].
    split; [vm_compute; reflexivity|].
    apply (logged_before_commit Example.logFails Example.ns
             (Example.cmd (BString "a_1")) 1 Example.w0 (Uncaught DurabilityFailure)).
    vm_compute. reflexivity.
Defined.

(** C9, as the code has it: the builds are cancelled while the exclusive
    database lock is held. The events of an attempt are the two locks,
    then events that are no cancellation and touch neither lock nor
    catalog, then the executor's events (the cancellation first, then
    only catalog accesses), then again events of the first kind, then
    the two unlocks. *)
Theorem cancellation_under_lock env ns idx i w :
  exists before exec after,
    trace (attemptBody env ns idx i w).2 =
      trace w ++ lockPrefix (NamespaceString.db ns)
        ++ before ++ exec ++ after
        ++ unlockSuffix (NamespaceString.db ns) /\
    forallb plainEvent before = true /\
    executorEvents exec = true /\
    forallb plainEvent after = true.
Proof.
  destruct (attemptBody env ns idx i w) as [r w'] eqn:Hb. cbn.
  apply attemptBody_ends in Hb.
  inversion Hb as [Hgate
                  |exec w1 Hgate Hlog Hexec Htr Hop Hu Hx
                  |exec r1 w1 Hgate Hcause Hexec Htr Hdb Hop Hu Hx]; subst.
  - exists (gateEvents env (NamespaceString.db ns)), [], []. cbn.
    repeat split. unfold gateEvents. by destruct (writesAreReplicated env).
  - exists (gateEvents env (NamespaceString.db ns) ++ [EvBeginUnitOfWork]), exec,
      [EvOnDropIndex (NamespaceString.db ns +:+ ".$cmd"); EvCommit].
    rewrite Htr. repeat split; [|by unfold gateEvents; destruct (writesAreReplicated env)|done].
    repeat (rewrite <- app_assoc; cbn). reflexivity.
  - exists (gateEvents env (NamespaceString.db ns) ++ [EvBeginUnitOfWork]), exec,
      [EvRollback].
    rewrite Htr. repeat split; [|by unfold gateEvents; destruct (writesAreReplicated env)|done].
    repeat (rewrite <- app_assoc; cbn). reflexivity.
Qed.

(** C9, as the claim has it, fails: the wildcard drop of the example is
    one attempt, in which the cancellation is the fifth event and the
    exclusive database lock the second. *)
Lemma cancellation_not_before_lock :
  exists w',
    dropIndexes Example.primary 1 Example.ns (Example.cmd (BString "*")) Example.w0
      = Some (Returned Status_OK, w') /\
    ~ killsBeforeDbLock (trace w').
Proof.
  eexists. split; [vm_compute; reflexivity|].
  intros H.
  specialize (H 4 1 (IndexKillCriteria.mk "test.c" EmptyString BSONEmpty) "test"
                eq_refl eq_refl).
  lia.
Qed.

(** * Further properties of the code *)

Arguments survivors : simpl never.
Arguments withCount : simpl never.

Lemma survivors_unfold ns f builds c :
  selectorCriteria ns f = Some c ->
  survivors ns f builds =
  filter (fun b => (bool_decide (buildNs b = ns) && matchesCriteria c b) = false) builds.
Proof. intros H. unfold survivors, cancelled. by rewrite H. Qed.

Lemma survivors_none ns f builds :
  selectorCriteria ns f = None -> survivors ns f builds = builds.
Proof.
  intros H. unfold survivors, cancelled. rewrite H.
  induction builds as [|b l IH]; [done|].
  rewrite filter_cons_True by done. by rewrite IH.
Qed.

(** Everything [wrappedRun] does on an existing collection. *)
Lemma wrappedRun_effect env i dbn ns d js w cat r w' :
  catalogOf (dbHolder w) d ns = Some cat ->
  wrappedRun env i dbn ns (Some d) js w = (r, w') ->
  inProgress w' = survivors ns (getField js "index") (inProgress w) /\
  serverLog w' = serverLog w ++ commandLine env ns /\
  match selectedDropFn cat (getField js "index") with
  | None =>
      exists s, resolutionFailure cat (getField js "index") = Some s /\
        r = Val s /\ dbHolder w' = dbHolder w /\
        result w' = withCount (result w) cat
  | Some g =>
      match storageEngine env i with
      | StorageOk =>
          r = Val Status_OK /\
          dbHolder w' = alterCatalog g d ns (dbHolder w) /\
          result w' = withMessage (getField js "index") (withCount (result w) cat)
      | StorageWriteConflict =>
          r = Throw WriteConflictException /\
          dbHolder w' = alterCatalog g d ns (dbHolder w) /\
          result w' = withCount (result w) cat
      | StorageFails msg =>
          r = Val (mkStatus ErrorCodes.InternalError msg) /\
          dbHolder w' = dbHolder w /\
          result w' = withCount (result w) cat
      end
  end.
Proof.
  intros Hcat.
  destruct (catalogOf_Some _ _ _ _ Hcat) as (D & C & HD & HC & <-).
  unfold selectedDropFn, resolutionFailure, commandLine, withMessage, isWildcard,
    withCount.
  unfold_ops. unfold_m. intros H.
  destruct (quiet env); cbn in H; rewrite HC in H.
  all: destruct (getField js "index") as [| | s | |o] eqn:Hf; cbn in *.
  all: repeat (rewrite ?Hcat in *; cbn in *; case_match; simplify_eq; merge_eqs).
  all: rewrite ?Hcat in *; cbn in *; simplify_eq.
  all: rewrite ?app_nil_r.
  all: try rewrite survivors_none by done.
  all: try (erewrite survivors_unfold by (cbn; rewrite ?decide_True, ?decide_False by done; reflexivity)).
  all: try rewrite bool_decide_eq_true_2 by done.
  all: try rewrite bool_decide_eq_false_2 by done.
  all: try (repeat split; eauto; done).
  all: exfalso;
    match goal with
    | H : bool_decide _ = false |- _ => by apply bool_decide_eq_false in H
    | H : bool_decide _ = true |- _ => by apply bool_decide_eq_true in H
    end.
Qed.

Lemma wrappedRun_absent_effect env i dbn ns db js w :
  match db with
  | Some d => collectionOf (dbHolder w) d ns
  | None => None
  end = None ->
  wrappedRun env i dbn ns db js w =
    (Val (mkStatus ErrorCodes.NamespaceNotFound "ns not found"),
     setServerLog (serverLog w ++ commandLine env ns) w).
Proof.
  intros H. unfold wrappedRun, commandLine. unfold_m.
  destruct (quiet env); cbn; rewrite H.
  - destruct db; f_equal; destruct w; cbn; by rewrite app_nil_r.
  - by destruct db.
Qed.

(** Everything one attempt does on an existing collection once the
    replication check has let it through. *)
Lemma attemptBody_effect env ns idx i w cat r w' :
  userInitiatedWritesAndNotPrimary env i (NamespaceString.db ns) = false ->
  catalogOf (dbHolder w) (NamespaceString.db ns) (NamespaceString.toString ns)
    = Some cat ->
  attemptBody env ns idx i w = (r, w') ->
  inProgress w' = survivors (NamespaceString.toString ns) (getField idx "index")
                    (inProgress w) /\
  serverLog w' = serverLog w ++ commandLine env (NamespaceString.toString ns) /\
  match selectedDropFn cat (getField idx "index") with
  | None =>
      exists s, resolutionFailure cat (getField idx "index") = Some s /\
        r = Val (Some s) /\ dbHolder w' = dbHolder w /\ oplog w' = oplog w /\
        result w' = withCount (result w) cat
  | Some g =>
      match storageEngine env i with
      | StorageOk =>
          if logAppends env i then
            r = Val None /\
            dbHolder w' = alterCatalog g (NamespaceString.db ns)
                            (NamespaceString.toString ns) (dbHolder w) /\
            oplog w' = oplog w ++ [oplogEntryOf ns idx] /\
            result w' = withMessage (getField idx "index") (withCount (result w) cat)
          else
            r = Throw DurabilityFailure /\
            dbHolder w' = dbHolder w /\ oplog w' = oplog w /\
            result w' = withMessage (getField idx "index") (withCount (result w) cat)
      | StorageWriteConflict =>
          r = Throw WriteConflictException /\
          dbHolder w' = dbHolder w /\ oplog w' = oplog w /\
          result w' = withCount (result w) cat
      | StorageFails msg =>
          r = Val (Some (mkStatus ErrorCodes.InternalError msg)) /\
          dbHolder w' = dbHolder w /\ oplog w' = oplog w /\
          result w' = withCount (result w) cat
      end
  end.
Proof.
  intros Hgate Hcat.
  destruct (catalogOf_Some _ _ _ _ Hcat) as (D & C & HD & HC & HCcat).
  past_gate Hgate.
  all: rewrite HD.
  all: match goal with
       | |- context [wrappedRun ?a ?b ?c ?d ?e ?f ?g] =>
           destruct (wrappedRun a b c d e f g) as [r1 w1] eqn:Hrun;
           pose proof (wrappedRun_effect a b c d c f g cat r1 w1 Hcat Hrun)
             as (Hp & Hl & Hcase);
           apply wrappedRun_frame in Hrun as (Hu & Ho & _)
       end.
  all: intros H; cbn in *.
  all: destruct (selectedDropFn cat (getField idx "index")) as [g|];
         [destruct (storageEngine env i);
          [destruct Hcase as (-> & Hd & Hr)..]
         |destruct Hcase as (s & Hs & -> & Hd & Hr);
          pose proof (resolutionFailure_not_OK _ _ _ Hs) as Hnok;
          rewrite Hnok in H].
  all: cbn in H; try (destruct (logAppends env i); cbn in H); simplify_eq.
  all: unfold endUnitOfWork, unlock, oplogEntryOf; cbn; rewrite ?Hu; cbn.
  all: rewrite ?Hp, ?Hl, ?Hr, ?Hd, ?Ho.
  all: try (repeat split; eauto; done).
  all: split; [done|split; [done|]]; by exists s.
Qed.

Lemma attemptBody_absent_effect env ns idx i w r w' :
  userInitiatedWritesAndNotPrimary env i (NamespaceString.db ns) = false ->
  collectionOf (dbHolder w) (NamespaceString.db ns) (NamespaceString.toString ns)
    = None ->
  attemptBody env ns idx i w = (r, w') ->
  r = Val (Some (mkStatus ErrorCodes.NamespaceNotFound "ns not found")) /\
  dbHolder w' = dbHolder w /\ oplog w' = oplog w /\
  inProgress w' = inProgress w /\ result w' = result w /\
  serverLog w' = serverLog w ++ commandLine env (NamespaceString.toString ns).
Proof.
  intros Hgate Habs. past_gate Hgate.
  all: rewrite wrappedRun_absent_effect
         by (cbn; by destruct (dbHolder w !! NamespaceString.db ns)).
  all: cbn; unfold endUnitOfWork, unlock; cbn.
  all: intros; by simplify_eq.
Qed.

(** ** What a selected drop does to a catalog *)

Lemma filter_delete_other {A} (P : A -> Prop) `{!forall x, Decision (P x)}
    (l : list A) p d :
  l !! p = Some d -> ~ P d -> filter P (delete p l) = filter P l.
Proof.
  revert p. induction l as [|x l IH]; intros p Hp Hd; [done|].
  destruct p as [|p]; simpl in Hp.
  - simplify_eq. change (delete 0 (d :: l)) with l.
    by rewrite filter_cons_False.
  - change (delete (S p) (x :: l)) with (x :: delete p l).
    rewrite !filter_cons. by rewrite (IH p Hp Hd).
Qed.

Lemma selectedDropFn_shape cat f g :
  selectedDropFn cat f = Some g ->
  (isWildcard f = true /\ g = (fun c => dropAllIndexes c false))
  \/ (exists p d, isWildcard f = false /\ g = (fun c => dropIndex c p) /\
        cat !! p = Some d /\ isIdIndex d = false /\
        ((exists s, f = BString s /\ findIndexByName cat (c_str s) = Some (p, d))
         \/ (exists o, f = BObject o /\ findIndexByKeyPattern cat o = Some (p, d)))).
Proof.
  unfold selectedDropFn, isWildcard. intros H.
  destruct f as [| |s| |o]; try done; cbn in H.
  - destruct (decide (c_str s = "*")) as [Hs|Hs].
    + left. simplify_eq. by rewrite bool_decide_eq_true_2.
    + right. destruct (findIndexByName cat (c_str s)) as [[p d]|] eqn:Hfind; [|done].
      destruct (isIdIndex d) eqn:Hid; [done|]. simplify_eq.
      exists p, d. rewrite bool_decide_eq_false_2 by done.
      split; [done|]. split; [done|]. split; [|split; [done|by eauto]].
      unfold findIndexByName in Hfind. by apply list_find_Some in Hfind as (? & _).
  - right. destruct (findIndexByKeyPattern cat o) as [[p d]|] eqn:Hfind; [|done].
    destruct (isIdIndex d) eqn:Hid; [done|]. simplify_eq.
    exists p, d.
    split; [done|]. split; [done|]. split; [|split; [done|by eauto]].
    unfold findIndexByKeyPattern in Hfind. by apply list_find_Some in Hfind as (? & _).
Qed.

Lemma selectedDropFn_keeps_id cat f g :
  selectedDropFn cat f = Some g ->
  filter (fun d => isIdIndex d = true) (g cat) = filter (fun d => isIdIndex d = true) cat.
Proof.
  intros [[_ ->]|(p & d & _ & -> & Hp & Hid & _)]%selectedDropFn_shape.
  - unfold dropAllIndexes. rewrite list_filter_filter.
    apply list_filter_iff. intros x. split; [by intros [? _]|by intros ?].
  - unfold dropIndex. apply (filter_delete_other _ _ _ _ Hp). congruence.
Qed.

Lemma selectedDropFn_sublist cat f g :
  selectedDropFn cat f = Some g -> g cat `sublist_of` cat.
Proof.
  intros [[_ ->]|(p & d & _ & -> & _)]%selectedDropFn_shape.
  - apply sublist_filter.
  - apply sublist_delete.
Qed.

(** ** The holder after an attempt and after the call *)

Lemma attemptBody_holder env ns idx i w r w' :
  attemptBody env ns idx i w = (r, w') ->
  (r <> Val None /\ dbHolder w' = dbHolder w /\ oplog w' = oplog w)
  \/ (r = Val None /\
      exists cat g,
        catalogOf (dbHolder w) (NamespaceString.db ns) (NamespaceString.toString ns)
          = Some cat /\
        selectedDropFn cat (getField idx "index") = Some g /\
        dbHolder w' = alterCatalog g (NamespaceString.db ns)
                        (NamespaceString.toString ns) (dbHolder w) /\
        oplog w' = oplog w ++ [oplogEntryOf ns idx] /\
        result w' = withMessage (getField idx "index") (withCount (result w) cat)).
Proof.
  intros Hb.
  destruct (userInitiatedWritesAndNotPrimary env i (NamespaceString.db ns)) eqn:Hgate.
  { rewrite (attemptBody_rejected _ _ _ _ _ Hgate) in Hb. simplify_eq. by left. }
  destruct (collectionOf (dbHolder w) (NamespaceString.db ns)
              (NamespaceString.toString ns)) as [C|] eqn:HC.
  2: { destruct (attemptBody_absent_effect _ _ _ _ _ _ _ Hgate HC Hb)
         as (-> & ? & ? & _). by left. }
  assert (Hcat : catalogOf (dbHolder w) (NamespaceString.db ns)
                   (NamespaceString.toString ns) = Some (indexCatalog C))
    by (unfold catalogOf; by rewrite HC).
  destruct (attemptBody_effect _ _ _ _ _ _ _ _ Hgate Hcat Hb) as (_ & _ & Hcase).
  destruct (selectedDropFn (indexCatalog C) (getField idx "index")) as [g|] eqn:Hg.
  - destruct (storageEngine env i); [destruct (logAppends env i)|..].
    + destruct Hcase as (-> & ? & ? & ?). right. split; [done|].
      by exists (indexCatalog C), g.
    + destruct Hcase as (-> & ? & ? & _). by left.
    + destruct Hcase as (-> & ? & ? & _). by left.
    + destruct Hcase as (-> & ? & ? & _). by left.
  - destruct Hcase as (s & _ & -> & ? & ? & _). by left.
Qed.

Lemma dropIndexes_holder env ns idx fuel w o w' :
  dropIndexes env fuel ns idx w = Some (o, w') ->
  ((forall s, o = Returned s -> isOK s = false) /\
   dbHolder w' = dbHolder w /\ oplog w' = oplog w)
  \/ (o = Returned Status_OK /\
      exists cat g,
        catalogOf (dbHolder w) (NamespaceString.db ns) (NamespaceString.toString ns)
          = Some cat /\
        selectedDropFn cat (getField idx "index") = Some g /\
        dbHolder w' = alterCatalog g (NamespaceString.db ns)
                        (NamespaceString.toString ns) (dbHolder w) /\
        oplog w' = oplog w ++ [oplogEntryOf ns idx]).
Proof.
  intros Hrun.
  apply dropIndexes_inv in Hrun as (k & wk & r & _ & Hc & Hb & Hne & ->).
  apply afterConflicts_frame in Hc as (Hd & Ho & _).
  pose proof (attemptBody_ends _ _ _ _ _ _ _ Hb) as Hends.
  apply attemptBody_holder in Hb as [(Hr & Hd' & Ho')|(-> & cat & g & Hcat & Hg & Hd' & Ho' & _)].
  - left. split; [|by rewrite Hd', Ho'].
    intros s Hs. destruct r as [[s'|]|e]; cbn in Hs; simplify_eq.
    inversion Hends; subst; done.
  - right. split; [done|]. exists cat, g. by rewrite <- Hd, <- Ho.
Qed.




(** * Further properties *)

(** ** What a call leaves of the catalogs *)

(** X1: OK is returned only after the selected drop: the collection
    existed, the selector was the wildcard or found an index that is not
    the _id index, the catalog is the old one with that drop applied, and
    one entry went to the log. *)
Theorem dropIndexes_OK_means_dropped env ns idx fuel w s w' :
  dropIndexes env fuel ns idx w = Some (Returned s, w') ->
  isOK s = true ->
  exists cat cat',
    catalogOf (dbHolder w) (NamespaceString.db ns) (NamespaceString.toString ns)
      = Some cat /\
    selectedDrop cat (getField idx "index") = Some cat' /\
    catalogOf (dbHolder w') (NamespaceString.db ns) (NamespaceString.toString ns)
      = Some cat' /\
    oplog w' = oplog w ++ [oplogEntryOf ns idx].
Proof.
  intros Hrun Hok.
  apply dropIndexes_holder in Hrun
    as [(Hno & _)|(_ & cat & g & Hcat & Hg & Hd & Ho)].
  - specialize (Hno s eq_refl). congruence.
  - exists cat, (g cat). unfold selectedDrop. rewrite Hg, Hd.
    by rewrite catalogOf_alterCatalog, Hcat.
Qed.

Lemma dropIndexes_OK_means_dropped_witness :
  exists w',
    dropIndexes (Example.contended 1) 2 Example.ns (Example.cmd (BString "a_1"))
                Example.w0 = Some (Returned Status_OK, w') /\
    exists cat cat',
      catalogOf (dbHolder Example.w0) "test" "test.c" = Some cat /\
      selectedDrop cat (BString "a_1") = Some cat' /\
      catalogOf (dbHolder w') "test" "test.c" = Some cat' /\
      oplog w' = oplog Example.w0
                   ++ [oplogEntryOf Example.ns (Example.cmd (BString "a_1"))].
Proof.
  eexists. split; [vm_compute; reflexivity|].
  apply (dropIndexes_OK_means_dropped (Example.contended 1) Example.ns
           (Example.cmd (BString "a_1")) 2 Example.w0 Status_OK);
    [vm_compute; reflexivity|reflexivity].
Defined.

(** X2: no call removes an _id index. Whatever the selector, the
    environment and the outcome, the descriptors flagged as _id index are
    the same before and after, in the same order. *)
Theorem dropIndexes_keeps_id_indexes env ns idx fuel w o w' cat :
  dropIndexes env fuel ns idx w = Some (o, w') ->
  catalogOf (dbHolder w) (NamespaceString.db ns) (NamespaceString.toString ns)
    = Some cat ->
  exists cat',
    catalogOf (dbHolder w') (NamespaceString.db ns) (NamespaceString.toString ns)
      = Some cat' /\
    filter (fun d => isIdIndex d = true) cat' = filter (fun d => isIdIndex d = true) cat /\
    hasOneIdIndex cat' = hasOneIdIndex cat.
Proof.
  intros Hrun Hcat.
  apply dropIndexes_holder in Hrun
    as [(_ & Hd & _)|(_ & cat0 & g & Hcat0 & Hg & Hd & _)].
  - exists cat. by rewrite Hd.
  - assert (cat0 = cat) as -> by congruence.
    exists (g cat). rewrite Hd, catalogOf_alterCatalog, Hcat.
    pose proof (selectedDropFn_keeps_id _ _ _ Hg) as Hid.
    repeat split; [done|]. unfold hasOneIdIndex. by rewrite Hid.
Qed.

Lemma dropIndexes_keeps_id_indexes_witness :
  exists w' cat',
    dropIndexes Example.primary 1 Example.ns (Example.cmd (BString "*")) Example.w0
      = Some (Returned Status_OK, w') /\
    catalogOf (dbHolder w') "test" "test.c" = Some cat' /\
    filter (fun d => isIdIndex d = true) cat' = [Example.id_].
Proof.
  assert (exists w',
            dropIndexes Example.primary 1 Example.ns (Example.cmd (BString "*"))
                        Example.w0 = Some (Returned Status_OK, w'))
    as (w' & Hrun) by (eexists; vm_compute; reflexivity).
  destruct (dropIndexes_keeps_id_indexes Example.primary Example.ns
              (Example.cmd (BString "*")) 1 Example.w0 (Returned Status_OK) w'
              [Example.id_; Example.a_1; Example.b_1] Hrun)
    as (cat' & Hcat' & Hid & _); [reflexivity|].
  exists w', cat'. split; [exact Hrun|]. split; [exact Hcat'|exact Hid].
Defined.

(** X3: a call only removes. The catalog afterwards is a sublist of the
    catalog before: no descriptor is added, changed or moved, and unless
    OK is returned none is removed either. *)
Theorem dropIndexes_only_removes env ns idx fuel w o w' cat :
  dropIndexes env fuel ns idx w = Some (o, w') ->
  catalogOf (dbHolder w) (NamespaceString.db ns) (NamespaceString.toString ns)
    = Some cat ->
  exists cat',
    catalogOf (dbHolder w') (NamespaceString.db ns) (NamespaceString.toString ns)
      = Some cat' /\
    cat' `sublist_of` cat /\
    ((forall s, o = Returned s -> isOK s = false) -> cat' = cat).
Proof.
  intros Hrun Hcat.
  apply dropIndexes_holder in Hrun
    as [(_ & Hd & _)|(-> & cat0 & g & Hcat0 & Hg & Hd & _)].
  - exists cat. by rewrite Hd.
  - assert (cat0 = cat) as -> by congruence.
    exists (g cat). rewrite Hd, catalogOf_alterCatalog, Hcat.
    split; [done|]. split; [by eapply selectedDropFn_sublist|].
    intros Hno. by specialize (Hno Status_OK eq_refl).
Qed.

Lemma dropIndexes_only_removes_witness :
  exists w' cat',
    dropIndexes Example.primary 1 Example.ns
        (Example.cmd (BObject (Example.key "a"))) Example.w0
      = Some (Returned Status_OK, w') /\
    catalogOf (dbHolder w') "test" "test.c" = Some cat' /\
    cat' `sublist_of` [Example.id_; Example.a_1; Example.b_1].
Proof.
  assert (exists w',
            dropIndexes Example.primary 1 Example.ns
                        (Example.cmd (BObject (Example.key "a"))) Example.w0
              = Some (Returned Status_OK, w'))
    as (w' & Hrun) by (eexists; vm_compute; reflexivity).
  destruct (dropIndexes_only_removes Example.primary Example.ns
              (Example.cmd (BObject (Example.key "a"))) 1 Example.w0
              (Returned Status_OK) w' [Example.id_; Example.a_1; Example.b_1] Hrun)
    as (cat' & Hcat' & Hsub & _); [reflexivity|].
  exists w', cat'. split; [exact Hrun|]. split; [exact Hcat'|exact Hsub].
Defined.



(** ** Successful and failing drops of one index *)

(** X5: a name or a key pattern that finds an index other than the _id
    index removes the descriptor found, and only it: the catalog
    afterwards is the catalog before without position [p], one shorter;
    the result gets nIndexesWas and nothing else, the log one entry. *)
Theorem dropIndexes_single_drop env fuel ns idx w cat p d :
  catalogOf (dbHolder w) (NamespaceString.db ns) (NamespaceString.toString ns)
    = Some cat ->
  userInitiatedWritesAndNotPrimary env 0 (NamespaceString.db ns) = false ->
  storageEngine env 0 = StorageOk ->
  logAppends env 0 = true ->
  isIdIndex d = false ->
  (exists s, getField idx "index" = BString s /\ c_str s <> "*" /\
             findIndexByName cat (c_str s) = Some (p, d))
  \/ (exists o, getField idx "index" = BObject o /\
                findIndexByKeyPattern cat o = Some (p, d)) ->
  exists w',
    dropIndexes env (S fuel) ns idx w = Some (Returned Status_OK, w') /\
    catalogOf (dbHolder w') (NamespaceString.db ns) (NamespaceString.toString ns)
      = Some (delete p cat) /\
    cat !! p = Some d /\
    length (delete p cat) = length cat - 1 /\
    result w' = appendNumber (result w) "nIndexesWas" (length cat) /\
    oplog w' = oplog w ++ [oplogEntryOf ns idx].
Proof.
  intros Hcat Hgate Hok Hlog Hid Hsel.
  assert (Hg : selectedDropFn cat (getField idx "index")
               = Some (fun c => dropIndex c p)).
  { destruct Hsel as [(s & -> & Hne & Hfind)|(o & -> & Hfind)]; cbn.
    - rewrite decide_False by done. by rewrite Hfind, Hid.
    - by rewrite Hfind, Hid. }
  assert (Hw : isWildcard (getField idx "index") = false).
  { destruct Hsel as [(s & -> & Hne & _)|(o & -> & _)]; cbn; [|done].
    by rewrite bool_decide_eq_false_2. }
  assert (Hp : cat !! p = Some d).
  { destruct Hsel as [(s & _ & _ & Hfind)|(o & _ & Hfind)];
      by apply list_find_Some in Hfind as (? & _). }
  destruct (attemptBody env ns idx 0 w) as [r w'] eqn:Hb.
  destruct (attemptBody_effect _ _ _ _ _ _ _ _ Hgate Hcat Hb) as (_ & _ & Hcase).
  rewrite Hg, Hok, Hlog in Hcase. destruct Hcase as (-> & Hd & Ho & Hr).
  exists w'. rewrite (dropIndexes_first_attempt _ _ _ _ _ _ _ Hb) by done.
  rewrite Hd, catalogOf_alterCatalog, Hcat, Hr. unfold withMessage. rewrite Hw.
  repeat split; try done.
  apply length_delete. by eexists.
Qed.

Lemma dropIndexes_single_drop_witness :
  exists w',
    dropIndexes Example.primary 1 Example.ns (Example.cmd (BString "a_1")) Example.w0
      = Some (Returned Status_OK, w') /\
    catalogOf (dbHolder w') "test" "test.c" = Some [Example.id_; Example.b_1] /\
    result w' = BSONField "nIndexesWas" (BNumber 3) BSONEmpty.
Proof.
  destruct (dropIndexes_single_drop Example.primary 0 Example.ns
              (Example.cmd (BString "a_1")) Example.w0
              [Example.id_; Example.a_1; Example.b_1] 1 Example.a_1)
    as (w' & Hrun & Hcat & _ & _ & Hr & _); try reflexivity.
  { left. exists "a_1". repeat split. discriminate. }
  exists w'. split; [exact Hrun|]. split; [exact Hcat|exact Hr].
Defined.

(** X6: when the catalog call of a selected drop returns a failure
    status, that status is what the caller gets; nothing is logged, no
    catalog changes, and the result has nIndexesWas but no message, also
    on the wildcard path. *)
Theorem dropIndexes_storage_failure env fuel ns idx w cat cat' msg :
  catalogOf (dbHolder w) (NamespaceString.db ns) (NamespaceString.toString ns)
    = Some cat ->
  userInitiatedWritesAndNotPrimary env 0 (NamespaceString.db ns) = false ->
  selectedDrop cat (getField idx "index") = Some cat' ->
  storageEngine env 0 = StorageFails msg ->
  exists w',
    dropIndexes env (S fuel) ns idx w =
      Some (Returned (mkStatus ErrorCodes.InternalError msg), w') /\
    dbHolder w' = dbHolder w /\ oplog w' = oplog w /\
    result w' = appendNumber (result w) "nIndexesWas" (length cat).
Proof.
  intros Hcat Hgate Hsel Hfail.
  unfold selectedDrop in Hsel.
  destruct (selectedDropFn cat (getField idx "index")) as [g|] eqn:Hg; [|done].
  destruct (attemptBody env ns idx 0 w) as [r w'] eqn:Hb.
  destruct (attemptBody_effect _ _ _ _ _ _ _ _ Hgate Hcat Hb) as (_ & _ & Hcase).
  rewrite Hg, Hfail in Hcase. destruct Hcase as (-> & Hd & Ho & Hr).
  exists w'. by rewrite (dropIndexes_first_attempt _ _ _ _ _ _ _ Hb).
Qed.

Lemma dropIndexes_storage_failure_witness :
  exists w',
    dropIndexes Scenario.storageRefuses 1 Example.ns (Example.cmd (BString "*"))
                Example.w0 =
      Some (Returned (mkStatus ErrorCodes.InternalError "cannot delete index"), w') /\
    dbHolder w' = dbHolder Example.w0 /\
    result w' = BSONField "nIndexesWas" (BNumber 3) BSONEmpty.
Proof.
  destruct (dropIndexes_storage_failure Scenario.storageRefuses 0 Example.ns
              (Example.cmd (BString "*")) Example.w0
              [Example.id_; Example.a_1; Example.b_1] [Example.id_]
              "cannot delete index")
    as (w' & Hrun & Hd & _ & Hr); try reflexivity.
  exists w'. split; [exact Hrun|]. split; [exact Hd|exact Hr].
Defined.

(** ** What the attempts that ran into a write conflict leave behind *)

Lemma survivors_idem ns f builds :
  survivors ns f (survivors ns f builds) = survivors ns f builds.
Proof. unfold survivors. apply list_filter_filter_l. done. Qed.

Lemma attemptBody_conflict_effect env ns idx i w cat w1 :
  catalogOf (dbHolder w) (NamespaceString.db ns) (NamespaceString.toString ns)
    = Some cat ->
  attemptBody env ns idx i w = (Throw WriteConflictException, w1) ->
  dbHolder w1 = dbHolder w /\
  inProgress w1 = survivors (NamespaceString.toString ns) (getField idx "index")
                    (inProgress w) /\
  result w1 = withCount (result w) cat /\
  serverLog w1 = serverLog w ++ commandLine env (NamespaceString.toString ns).
Proof.
  intros Hcat Hb.
  pose proof (attemptBody_ends _ _ _ _ _ _ _ Hb) as Hends.
  inversion Hends as [| |exec r0 w0 Hgate _ _ _ Hd _ _ _]; subst.
  destruct (attemptBody_effect _ _ _ _ _ _ _ _ Hgate Hcat Hb) as (Hp & Hl & Hcase).
  destruct (selectedDropFn cat (getField idx "index")) as [g|].
  - destruct (storageEngine env i); [destruct (logAppends env i)|..];
      destruct Hcase as (? & _ & _ & Hr); by simplify_eq.
  - by destruct Hcase as (s & _ & ? & _).
Qed.

Lemma afterConflicts_effect env ns idx cat k : forall i w wk,
  catalogOf (dbHolder w) (NamespaceString.db ns) (NamespaceString.toString ns)
    = Some cat ->
  afterConflicts env ns idx k i w = Some wk ->
  inProgress wk = Nat.iter k (survivors (NamespaceString.toString ns)
                                (getField idx "index")) (inProgress w) /\
  result wk = Nat.iter k (fun b => withCount b cat) (result w) /\
  serverLog wk = Nat.iter k (fun l => l ++ commandLine env (NamespaceString.toString ns))
                   (serverLog w).
Proof.
  induction k as [|k IH]; intros i w wk Hcat Hc; cbn in Hc.
  - by simplify_eq.
  - destruct (attemptBody env ns idx i w) as [[a|[]] w1] eqn:Hb; try discriminate.
    destruct (attemptBody_conflict_effect _ _ _ _ _ _ _ Hcat Hb)
      as (Hd & Hp & Hr & Hl).
    apply IH in Hc as (Hp' & Hr' & Hl'); [|cbn; by rewrite Hd].
    cbn in Hp', Hr', Hl'.
    rewrite !Nat.iter_succ_r. by rewrite Hp', Hr', Hl', Hp, Hr, Hl.
Qed.

Lemma iter_survivors ns f builds k :
  Nat.iter (S k) (survivors ns f) builds = survivors ns f builds.
Proof.
  induction k as [|k IH]; [done|].
  change (Nat.iter (S (S k)) (survivors ns f) builds)
    with (survivors ns f (Nat.iter (S k) (survivors ns f) builds)).
  by rewrite IH, survivors_idem.
Qed.

(** X7: the builds that match the selector are cancelled whatever comes
    of the call. Once the first attempt is let through to an existing
    collection, the registry afterwards is the registry before without
    the builds of the selector, also when the selector is then refused,
    the attempt rolled back or the log append fails; no other build is
    taken out. *)
Theorem builds_cancelled_whatever_the_outcome env ns idx fuel w o w' cat :
  catalogOf (dbHolder w) (NamespaceString.db ns) (NamespaceString.toString ns)
    = Some cat ->
  userInitiatedWritesAndNotPrimary env 0 (NamespaceString.db ns) = false ->
  dropIndexes env fuel ns idx w = Some (o, w') ->
  inProgress w' = survivors (NamespaceString.toString ns) (getField idx "index")
                    (inProgress w) /\
  (forall b, b ∈ inProgress w' <->
             b ∈ inProgress w /\
             cancelled (NamespaceString.toString ns) (getField idx "index") b = false) /\
  (forall b, b ∈ inProgress w -> buildNs b <> NamespaceString.toString ns ->
             b ∈ inProgress w').
Proof.
  intros Hcat Hgate Hrun.
  assert (Hp : inProgress w' = survivors (NamespaceString.toString ns)
                                 (getField idx "index") (inProgress w)).
  { apply dropIndexes_inv in Hrun as (k & wk & r & _ & Hc & Hb & _ & _).
    pose proof (afterConflicts_frame _ _ _ _ _ _ _ Hc) as (Hd & _).
    pose proof (afterConflicts_effect _ _ _ _ _ _ _ _ Hcat Hc) as (Hpk & _).
    destruct (userInitiatedWritesAndNotPrimary env k (NamespaceString.db ns))
      eqn:Hgk.
    - rewrite (attemptBody_rejected _ _ _ _ _ Hgk) in Hb. simplify_eq. cbn.
      destruct k as [|k]; [congruence|]. by rewrite Hpk, iter_survivors.
    - assert (Hcatk : catalogOf (dbHolder wk) (NamespaceString.db ns)
                        (NamespaceString.toString ns) = Some cat)
        by (by rewrite Hd).
      destruct (attemptBody_effect _ _ _ _ _ _ _ _ Hgk Hcatk Hb) as (Hp & _).
      rewrite Hp, Hpk. destruct k as [|k]; [done|].
      by rewrite iter_survivors, survivors_idem. }
  split; [done|]. rewrite Hp. unfold survivors. split.
  - intros b. by rewrite list_elem_of_filter, (comm and).
  - intros b Hin Hns. apply list_elem_of_filter. split; [|done].
    unfold cancelled. destruct (selectorCriteria _ _); [|done].
    by rewrite bool_decide_eq_false_2.
Qed.

Lemma builds_cancelled_whatever_the_outcome_witness :
  exists w',
    dropIndexes Example.primary 1 Example.ns (Example.cmd (BString "c_1"))
                Scenario.busy =
      Some (Returned (mkStatus ErrorCodes.IndexNotFound
                        "index not found with name [c_1]"), w') /\
    inProgress w' = [mkIndexBuild "test.other" "c_1" (Example.key "c");
                     mkIndexBuild "test.c" "d_1" (Example.key "d")].
Proof.
  assert (exists w',
            dropIndexes Example.primary 1 Example.ns (Example.cmd (BString "c_1"))
                        Scenario.busy =
              Some (Returned (mkStatus ErrorCodes.IndexNotFound
                                "index not found with name [c_1]"), w'))
    as (w' & Hrun) by (eexists; vm_compute; reflexivity).
  destruct (builds_cancelled_whatever_the_outcome Example.primary Example.ns
              (Example.cmd (BString "c_1")) 1 Scenario.busy _ w'
              [Example.id_; Example.a_1; Example.b_1] eq_refl eq_refl Hrun)
    as (Hp & _).
  exists w'. split; [exact Hrun|]. rewrite Hp. reflexivity.
Defined.

(** ** Retried attempts *)

Lemma afterConflicts_runs env ns idx cat g k : forall i w,
  catalogOf (dbHolder w) (NamespaceString.db ns) (NamespaceString.toString ns)
    = Some cat ->
  selectedDropFn cat (getField idx "index") = Some g ->
  (forall j, i <= j < i + k ->
     userInitiatedWritesAndNotPrimary env j (NamespaceString.db ns) = false /\
     storageEngine env j = StorageWriteConflict) ->
  exists wk, afterConflicts env ns idx k i w = Some wk.
Proof.
  induction k as [|k IH]; intros i w Hcat Hg Hall; cbn; [by eexists|].
  destruct (Hall i ltac:(lia)) as [Hgate Hconf].
  destruct (attemptBody env ns idx i w) as [r w1] eqn:Hb.
  destruct (attemptBody_effect _ _ _ _ _ _ _ _ Hgate Hcat Hb) as (_ & _ & Hcase).
  rewrite Hg, Hconf in Hcase. destruct Hcase as (-> & Hd & _).
  apply IH; [cbn; by rewrite Hd|done|].
  intros j Hj. apply Hall. lia.
Qed.

(** X8: the result builder is not part of the unit of work. When the
    first [k] attempts end in a write conflict and attempt [k] goes
    through, the call returns OK, the catalog has lost what the selector
    names and the log has one entry, but the result carries nIndexesWas
    once for every attempt, [k + 1] times, and the command line is logged
    once for every attempt. *)
Theorem reply_counts_every_attempt env ns idx fuel k w cat g :
  catalogOf (dbHolder w) (NamespaceString.db ns) (NamespaceString.toString ns)
    = Some cat ->
  selectedDropFn cat (getField idx "index") = Some g ->
  (forall j, j <= k ->
     userInitiatedWritesAndNotPrimary env j (NamespaceString.db ns) = false) ->
  (forall j, j < k -> storageEngine env j = StorageWriteConflict) ->
  storageEngine env k = StorageOk ->
  logAppends env k = true ->
  k < fuel ->
  exists w',
    dropIndexes env fuel ns idx w = Some (Returned Status_OK, w') /\
    result w' = withMessage (getField idx "index")
                  (Nat.iter (S k) (fun b => withCount b cat) (result w)) /\
    serverLog w' = Nat.iter (S k)
                     (fun l => l ++ commandLine env (NamespaceString.toString ns))
                     (serverLog w) /\
    catalogOf (dbHolder w') (NamespaceString.db ns) (NamespaceString.toString ns)
      = Some (g cat) /\
    oplog w' = oplog w ++ [oplogEntryOf ns idx].
Proof.
  intros Hcat Hg Hgates Hconf Hok Hlog Hk.
  destruct (afterConflicts_runs env ns idx cat g k 0 w Hcat Hg) as (wk & Hc).
  { intros j Hj. split; [apply Hgates|apply Hconf]; lia. }
  pose proof (afterConflicts_frame _ _ _ _ _ _ _ Hc) as (Hd & Ho & _).
  pose proof (afterConflicts_effect _ _ _ _ _ _ _ _ Hcat Hc) as (_ & Hr & Hl).
  assert (Hcatk : catalogOf (dbHolder wk) (NamespaceString.db ns)
                    (NamespaceString.toString ns) = Some cat)
    by (by rewrite Hd).
  destruct (attemptBody env ns idx k wk) as [r w'] eqn:Hb.
  destruct (attemptBody_effect _ _ _ _ _ _ _ _ (Hgates k (le_n k)) Hcatk Hb)
    as (_ & Hl' & Hcase).
  rewrite Hg, Hok, Hlog in Hcase. destruct Hcase as (-> & Hd' & Ho' & Hr').
  exists w'. split.
  { unfold dropIndexes, dropIndexesFrom.
    replace fuel with (k + S (fuel - S k)) by lia.
    rewrite (retry_after_conflicts _ _ _ _ _ _ _ _ Hc).
    change (0 + k) with k.
    by rewrite (retry_leaves _ _ _ _ _ _ _ _ Hb). }
  rewrite Hr', Hr, Hl', Hl, Hd', Ho', Ho, Hd, catalogOf_alterCatalog, Hcat.
  done.
Qed.

Lemma reply_counts_every_attempt_witness :
  exists w',
    dropIndexes (Example.contended 2) 3 Example.ns (Example.cmd (BString "*"))
                Example.w0 = Some (Returned Status_OK, w') /\
    result w' =
      BSONField "nIndexesWas" (BNumber 3)
        (BSONField "nIndexesWas" (BNumber 3)
           (BSONField "nIndexesWas" (BNumber 3)
              (BSONField "msg" (BString "non-_id indexes dropped for collection")
                 BSONEmpty))) /\
    serverLog w' = ["CMD: dropIndexes test.c"; "CMD: dropIndexes test.c";
                    "CMD: dropIndexes test.c"].
Proof.
  destruct (reply_counts_every_attempt (Example.contended 2) Example.ns
              (Example.cmd (BString "*")) 3 2 Example.w0
              [Example.id_; Example.a_1; Example.b_1]
              (fun c => dropAllIndexes c false))
    as (w' & Hrun & Hr & Hl & _); try reflexivity; try lia.
  { intros j Hj. cbn. by rewrite decide_True by done. }
  exists w'. split; [exact Hrun|]. split; [exact Hr|exact Hl].
Defined.

(** ** The server log *)

Lemma attemptBody_log env ns idx i w r w' :
  attemptBody env ns idx i w = (r, w') ->
  serverLog w' =
    serverLog w ++
      (if userInitiatedWritesAndNotPrimary env i (NamespaceString.db ns) then []
       else commandLine env (NamespaceString.toString ns)).
Proof.
  intros Hb.
  destruct (userInitiatedWritesAndNotPrimary env i (NamespaceString.db ns))
    eqn:Hgate.
  - rewrite (attemptBody_rejected _ _ _ _ _ Hgate) in Hb. simplify_eq. cbn.
    by rewrite app_nil_r.
  - destruct (collectionOf (dbHolder w) (NamespaceString.db ns)
                (NamespaceString.toString ns)) as [c|] eqn:Hc.
    + assert (Hcat : catalogOf (dbHolder w) (NamespaceString.db ns)
                       (NamespaceString.toString ns) = Some (indexCatalog c))
        by (unfold catalogOf; by rewrite Hc).
      by destruct (attemptBody_effect _ _ _ _ _ _ _ _ Hgate Hcat Hb) as (_ & ? & _).
    + by destruct (attemptBody_absent_effect _ _ _ _ _ _ _ Hgate Hc Hb)
        as (_ & _ & _ & _ & _ & ?).
Qed.

Lemma afterConflicts_log env ns idx k : forall i w wk,
  afterConflicts env ns idx k i w = Some wk ->
  serverLog wk = serverLog w ++
                   mjoin (replicate k (commandLine env (NamespaceString.toString ns))).
Proof.
  induction k as [|k IH]; intros i w wk Hc; cbn in Hc.
  - simplify_eq. cbn. by rewrite app_nil_r.
  - destruct (attemptBody env ns idx i w) as [[a|[]] w1] eqn:Hb; try discriminate.
    pose proof (attemptBody_log _ _ _ _ _ _ _ Hb) as Hl.
    destruct (userInitiatedWritesAndNotPrimary env i (NamespaceString.db ns))
      eqn:Hgate.
    { by rewrite (attemptBody_rejected _ _ _ _ _ Hgate) in Hb. }
    apply IH in Hc. cbn in Hc. rewrite Hc, Hl. cbn. by rewrite <- app_assoc.
Qed.

(** ** Counting attempts *)

Lemma countEvents_app p evs1 evs2 :
  countEvents p (evs1 ++ evs2) = countEvents p evs1 + countEvents p evs2.
Proof. unfold countEvents. by rewrite List.filter_app, length_app. Qed.

Lemma countEvents_executor p exec :
  executorEvents exec = true ->
  (forall c, p (EvKillBuilds c) = false) ->
  (forall e, isCatalogAccess e = true -> p e = false) ->
  countEvents p exec = 0.
Proof.
  intros Hexec Hk Hc.
  assert (Hall : forall e, e ∈ exec -> p e = false).
  { intros e He. destruct (executorEvents_elem _ _ Hexec He) as [[c ->]|Ha]; auto. }
  clear Hexec. unfold countEvents.
  induction exec as [|e exec IH]; [done|]. cbn.
  rewrite (Hall e) by left. apply IH. intros e' He'. apply Hall. by right.
Qed.

Lemma countEvents_gate p env db :
  (forall d, p (EvCanAcceptWrites d) = false) ->
  countEvents p (gateEvents env db) = 0.
Proof.
  intros Hp. unfold gateEvents, countEvents.
  destruct (writesAreReplicated env); [|done]. cbn. by rewrite Hp.
Qed.

Lemma attemptBody_counts env ns idx i w r w' :
  attemptBody env ns idx i w = (r, w') ->
  exists evs, trace w' = trace w ++ evs /\
    attemptsMade evs = 1 /\
    attemptsAdmitted evs =
      (if userInitiatedWritesAndNotPrimary env i (NamespaceString.db ns)
       then 0 else 1).
Proof.
  intros Hb. apply attemptBody_ends in Hb.
  assert (Hm : forall exec, executorEvents exec = true ->
                 countEvents startsAttempt exec = 0).
  { intros exec He. apply countEvents_executor; [done..|]. by intros []. }
  assert (Ha : forall exec, executorEvents exec = true ->
                 countEvents passesCheck exec = 0).
  { intros exec He. apply countEvents_executor; [done..|]. by intros []. }
  inversion Hb as [Hgate
                  |exec w1 Hgate Hlog Hexec Htr Hop Hu Hx
                  |exec r1 w1 Hgate Hcause Hexec Htr Hdb Hop Hu Hx]; subst.
  - eexists. split; [reflexivity|]. rewrite Hgate.
    unfold attemptsMade, attemptsAdmitted.
    rewrite !countEvents_app, !countEvents_gate by done. split; reflexivity.
  - eexists. split; [exact Htr|]. rewrite Hgate.
    unfold attemptsMade, attemptsAdmitted.
    change (EvBeginUnitOfWork :: exec ++ ?l) with ([EvBeginUnitOfWork] ++ exec ++ l).
    rewrite !countEvents_app, !countEvents_gate, (Hm exec Hexec), (Ha exec Hexec) by done.
    split; reflexivity.
  - eexists. split; [exact Htr|]. rewrite Hgate.
    unfold attemptsMade, attemptsAdmitted.
    change (EvBeginUnitOfWork :: exec ++ ?l) with ([EvBeginUnitOfWork] ++ exec ++ l).
    rewrite !countEvents_app, !countEvents_gate, (Hm exec Hexec), (Ha exec Hexec) by done.
    split; reflexivity.
Qed.

Lemma afterConflicts_cause env ns idx k : forall i w wk,
  afterConflicts env ns idx k i w = Some wk ->
  forall j, i <= j < i + k ->
    userInitiatedWritesAndNotPrimary env j (NamespaceString.db ns) = false /\
    storageEngine env j = StorageWriteConflict.
Proof.
  induction k as [|k IH]; intros i w wk Hc j Hj; [lia|]. cbn in Hc.
  destruct (attemptBody env ns idx i w) as [[a|[]] w1] eqn:Hb; try discriminate.
  destruct (decide (j = i)) as [->|Hne].
  - apply attemptBody_ends in Hb. by inversion Hb.
  - apply (IH _ _ _ Hc). lia.
Qed.

Lemma afterConflicts_counts env ns idx k : forall i w wk,
  afterConflicts env ns idx k i w = Some wk ->
  exists evs, trace wk = trace w ++ evs /\
    attemptsMade evs = k /\ attemptsAdmitted evs = k.
Proof.
  induction k as [|k IH]; intros i w wk Hc.
  - cbn in Hc. simplify_eq. exists []. by rewrite app_nil_r.
  - pose proof (afterConflicts_cause _ _ _ _ _ _ _ Hc i ltac:(lia)) as [Hgate _].
    cbn in Hc.
    destruct (attemptBody env ns idx i w) as [[a|[]] w1] eqn:Hb; try discriminate.
    apply attemptBody_counts in Hb as (evs1 & Ht1 & Hm1 & Ha1).
    rewrite Hgate in Ha1.
    apply IH in Hc as (evs2 & Ht2 & Hm2 & Ha2). cbn in Ht2.
    exists (evs1 ++ [EvWriteConflict i] ++ evs2). split.
    + rewrite Ht2, Ht1. by rewrite <- !app_assoc.
    + unfold attemptsMade, attemptsAdmitted in *.
      rewrite !countEvents_app, Hm1, Ha1, Hm2, Ha2. done.
Qed.

Lemma admitted_all env db n :
  (forall j, j < n -> userInitiatedWritesAndNotPrimary env j db = false) ->
  admitted env db n = seq 0 n.
Proof.
  intros Hall. unfold admitted.
  induction n as [|n IH]; [done|].
  rewrite seq_S, List.filter_app, IH by (intros; apply Hall; lia). cbn.
  by rewrite Hall by lia.
Qed.

Lemma admitted_S env db n :
  admitted env db (S n) =
  admitted env db n ++
    (if userInitiatedWritesAndNotPrimary env n db then [] else [n]).
Proof.
  unfold admitted. rewrite seq_S, List.filter_app. cbn.
  by destruct (userInitiatedWritesAndNotPrimary env n db).
Qed.

(** X9: the only thing the call writes to the server log is the line
    CMD: dropIndexes followed by the namespace, once for each attempt
    that passed the replication check and never with quiet set. The
    attempts made are those numbered from 0, each starting with the
    global lock; the ones that passed the check, each opening its unit
    of work, are the ones the replication coordinator let through, and
    the log has one line for each of them. The line is written before
    the collection is looked up, so a call on a namespace that does not
    exist logs it too. *)
Theorem command_line_logged env ns idx fuel w o w' :
  dropIndexes env fuel ns idx w = Some (o, w') ->
  exists evs,
    trace w' = trace w ++ evs /\
    0 < attemptsMade evs <= fuel /\
    attemptsAdmitted evs =
      length (admitted env (NamespaceString.db ns) (attemptsMade evs)) /\
    serverLog w' =
      serverLog w ++
        (if quiet env then []
         else replicate (attemptsAdmitted evs)
                ("CMD: dropIndexes " +:+ NamespaceString.toString ns)).
Proof.
  intros Hrun.
  apply dropIndexes_inv in Hrun as (k & wk & r & Hk & Hc & Hb & _ & _).
  pose proof (afterConflicts_log _ _ _ _ _ _ _ Hc) as Hlk.
  pose proof (attemptBody_log _ _ _ _ _ _ _ Hb) as Hl.
  pose proof (afterConflicts_cause _ _ _ _ _ _ _ Hc) as Hcause.
  apply afterConflicts_counts in Hc as (evs1 & Ht1 & Hm1 & Ha1).
  apply attemptBody_counts in Hb as (evs2 & Ht2 & Hm2 & Ha2).
  exists (evs1 ++ evs2).
  unfold attemptsMade, attemptsAdmitted in *.
  rewrite !countEvents_app, Hm1, Hm2, Ha1, Ha2.
  split; [by rewrite Ht2, Ht1, <- app_assoc|]. split; [lia|].
  replace (k + 1) with (S k) by lia. rewrite admitted_S.
  rewrite admitted_all by (intros j Hj; apply Hcause; lia).
  rewrite length_app, length_seq.
  split; [by destruct (userInitiatedWritesAndNotPrimary env k _)|].
  rewrite Hl, Hlk, <- app_assoc. f_equal. unfold commandLine.
  destruct (quiet env).
  - assert (Hnil : forall m, mjoin (replicate m (@nil string)) = [])
      by (induction m; [done|by cbn]).
    rewrite Hnil. by destruct (userInitiatedWritesAndNotPrimary env k _).
  - assert (Hone : forall (x : string) m, mjoin (replicate m [x]) = replicate m x)
      by (intros x; induction m as [|m IHm]; [done|];
          change (mjoin (replicate (S m) [x])) with ([x] ++ mjoin (replicate m [x]));
          by rewrite IHm).
    rewrite Hone.
    destruct (userInitiatedWritesAndNotPrimary env k _).
    + by rewrite Nat.add_0_r, app_nil_r.
    + change [?x] with (replicate 1 x). by rewrite <- replicate_add.
Qed.

Lemma command_line_logged_witness :
  exists w',
    dropIndexes Example.steppingDown 2 Example.ns (Example.cmd (BString "a_1"))
                Example.w0 =
      Some (Returned (notPrimaryStatus Example.ns), w') /\
    serverLog w' = ["CMD: dropIndexes test.c"].
Proof.
  assert (exists w',
            dropIndexes Example.steppingDown 2 Example.ns
                        (Example.cmd (BString "a_1")) Example.w0 =
              Some (Returned (notPrimaryStatus Example.ns), w'))
    as (w' & Hrun) by (eexists; vm_compute; reflexivity).
  destruct (command_line_logged Example.steppingDown Example.ns
              (Example.cmd (BString "a_1")) 2 Example.w0 _ w' Hrun)
    as (evs & _ & Hm & Ha & Hl).
  exists w'. split; [exact Hrun|].
  assert (Hone : attemptsAdmitted evs = 1).
  { rewrite Ha. destruct (attemptsMade evs) as [|[|[|n]]]; [lia|reflexivity..|lia]. }
  rewrite Hl, Hone. reflexivity.
Defined.

(** ** What of the command is read *)

(** X10: of the command object [wrappedRun] reads the first field named
    index and nothing else, and of a string selector only the characters
    before the first NUL: two commands whose selectors look alike that
    far run alike. *)
Theorem only_the_selector_is_read env i dbn ns db js1 js2 w :
  selectorView (getField js1 "index") = selectorView (getField js2 "index") ->
  wrappedRun env i dbn ns db js1 w = wrappedRun env i dbn ns db js2 w.
Proof.
  intros H. unfold wrappedRun, stopIndexBuilds.
  destruct (getField js1 "index") as [| |s1| |o1],
           (getField js2 "index") as [| |s2| |o2];
    cbn in H; try discriminate; try reflexivity.
  - injection H as H. cbn [valuestr]. by rewrite H.
  - by injection H as ->.
Qed.

Lemma only_the_selector_is_read_witness :
  wrappedRun Example.primary 0 "test" "test.c" (Some "test")
             (Example.cmd (BString "*")) Example.w0 =
  wrappedRun Example.primary 0 "test" "test.c" (Some "test")
             (Scenario.noisyCmd (BString Scenario.starNulAbc)) Example.w0.
Proof.
  apply (only_the_selector_is_read Example.primary 0 "test" "test.c" (Some "test")
           (Example.cmd (BString "*"))
           (Scenario.noisyCmd (BString Scenario.starNulAbc)) Example.w0).
  vm_compute. reflexivity.
Defined.

(** ** stopIndexBuilds *)

Lemma killedBy_unfold ns f builds c :
  selectorCriteria ns f = Some c ->
  killedBy ns f builds =
  filter (fun b => (bool_decide (buildNs b = ns) && matchesCriteria c b) = true) builds.
Proof. intros H. unfold killedBy, cancelled. by rewrite H. Qed.

Lemma killedBy_none ns f builds :
  selectorCriteria ns f = None -> killedBy ns f builds = [].
Proof.
  intros H. unfold killedBy, cancelled. rewrite H.
  induction builds as [|b l IH]; [done|].
  rewrite filter_cons_False by done. by rewrite IH.
Qed.

Lemma killedBy_survivors ns f builds :
  killedBy ns f builds ++ survivors ns f builds ≡ₚ builds.
Proof.
  unfold killedBy, survivors.
  rewrite (list_filter_iff (fun b => cancelled ns f b = false)
             (fun b => ~ cancelled ns f b = true)).
  - apply filter_app_complement.
  - intros b. by destruct (cancelled ns f b).
Qed.

Lemma killedBy_ns ns f builds b :
  b ∈ killedBy ns f builds -> b ∈ builds /\ buildNs b = ns.
Proof.
  unfold killedBy. rewrite list_elem_of_filter. intros [Hc Hin]. split; [done|].
  unfold cancelled in Hc. destruct (selectorCriteria ns f); [|done].
  apply andb_true_iff in Hc as [Hns _]. by apply bool_decide_eq_true in Hns.
Qed.

(** X11: on a collection its database has, [stopIndexBuilds] splits the
    registry in two. It hands back the builds the selector names, all of
    them on the collection, and leaves the others in the registry, both
    in their old order; it touches nothing else and returns normally. A
    selector that is neither a string nor an object cancels nothing and
    leaves the state as it is. *)
Theorem stopIndexBuilds_splits_the_registry db ns js w c r w' :
  collectionOf (dbHolder w) db ns = Some c ->
  stopIndexBuilds db ns js w = (r, w') ->
  r = Val (killedBy ns (getField js "index") (inProgress w)) /\
  inProgress w' = survivors ns (getField js "index") (inProgress w) /\
  killedBy ns (getField js "index") (inProgress w) ++ inProgress w'
    ≡ₚ inProgress w /\
  (forall b, b ∈ killedBy ns (getField js "index") (inProgress w) ->
             buildNs b = ns) /\
  (selectorView (getField js "index") = SelOther -> w' = w) /\
  dbHolder w' = dbHolder w /\ oplog w' = oplog w /\
  unitOfWork w' = unitOfWork w /\ result w' = result w /\
  serverLog w' = serverLog w.
Proof.
  intros Hc H.
  assert (Hw : r = Val (killedBy ns (getField js "index") (inProgress w)) /\
               inProgress w' = survivors ns (getField js "index") (inProgress w) /\
               (selectorView (getField js "index") = SelOther -> w' = w) /\
               dbHolder w' = dbHolder w /\ oplog w' = oplog w /\
               unitOfWork w' = unitOfWork w /\ result w' = result w /\
               serverLog w' = serverLog w).
  { revert H. unfold stopIndexBuilds, killMatchingIndexBuilds. unfold_m.
    rewrite Hc.
    destruct (getField js "index") as [| |s| |o] eqn:Hf; cbn.
    1,2,4: intros; simplify_eq;
      rewrite killedBy_none, survivors_none by done; done.
    - destruct (decide (c_str s = "*")) as [Hs|Hs]; cbn; intros; simplify_eq; cbn.
      + erewrite killedBy_unfold, survivors_unfold
          by (cbn; rewrite decide_True by done; reflexivity).
        done.
      + erewrite killedBy_unfold, survivors_unfold
          by (cbn; rewrite decide_False by done; reflexivity).
        done.
    - intros; simplify_eq; cbn.
      erewrite killedBy_unfold, survivors_unfold by (cbn; reflexivity).
      done. }
  destruct Hw as (Hr & Hp & Hrest). split; [done|]. split; [done|].
  split; [rewrite Hp; apply killedBy_survivors|].
  split; [|done]. intros b Hb. by apply killedBy_ns in Hb as [_ ?].
Qed.

Lemma stopIndexBuilds_splits_the_registry_witness :
  exists w',
    stopIndexBuilds "test" "test.c" (Example.cmd (BString "*")) Scenario.busy =
      (Val [mkIndexBuild "test.c" "c_1" (Example.key "c");
            mkIndexBuild "test.c" "d_1" (Example.key "d")], w') /\
    inProgress w' = [mkIndexBuild "test.other" "c_1" (Example.key "c")].
Proof.
  destruct (stopIndexBuilds "test" "test.c" (Example.cmd (BString "*")) Scenario.busy)
    as [r w'] eqn:Hrun.
  destruct (stopIndexBuilds_splits_the_registry "test" "test.c"
              (Example.cmd (BString "*")) Scenario.busy
              (mkCollection "test.c" [Example.id_; Example.a_1; Example.b_1]) r w')
    as (-> & Hp & _); [reflexivity|exact Hrun|].
  exists w'. split; [reflexivity|]. rewrite Hp. reflexivity.
Defined.

(** ** One call after another *)

Lemma list_find_delete_unique {A B} (f : A -> B) `{EqDecision B}
    (l : list A) (b : B) p d :
  NoDup (f <$> l) ->
  list_find (fun x => f x = b) l = Some (p, d) ->
  list_find (fun x => f x = b) (delete p l) = None.
Proof.
  intros Hnd Hfind. apply list_find_Some in Hfind as (Hp & Hd & _).
  apply list_find_None, Forall_forall. intros x Hx Hfx.
  apply list_elem_of_lookup in Hx as [j Hj].
  assert (Hpb : (f <$> l) !! p = Some b) by (by rewrite list_lookup_fmap, Hp; cbn; f_equal).
  destruct (decide (j < p)) as [Hlt|Hge].
  - rewrite list_lookup_delete_lt in Hj by done.
    assert (Hjb : (f <$> l) !! j = Some b)
      by (by rewrite list_lookup_fmap, Hj; cbn; f_equal).
    pose proof (NoDup_lookup _ _ _ _ Hnd Hjb Hpb). lia.
  - rewrite list_lookup_delete_ge in Hj by lia.
    assert (Hjb : (f <$> l) !! S j = Some b)
      by (by rewrite list_lookup_fmap, Hj; cbn; f_equal).
    pose proof (NoDup_lookup _ _ _ _ Hnd Hjb Hpb). lia.
Qed.

(** X12: dropping the same index a second time fails. With index names
    and key patterns unique in the catalog, a call that dropped one index
    by name or by key pattern leaves a catalog in which the selector finds
    nothing: the same command, run again, answers IndexNotFound for a name
    and InvalidOptions for a key pattern, and changes no catalog. *)
Theorem second_drop_finds_nothing env env2 fuel fuel2 ns idx w w1 cat :
  catalogOf (dbHolder w) (NamespaceString.db ns) (NamespaceString.toString ns)
    = Some cat ->
  NoDup (indexName <$> cat) ->
  NoDup (keyPattern <$> cat) ->
  isWildcard (getField idx "index") = false ->
  dropIndexes env fuel ns idx w = Some (Returned Status_OK, w1) ->
  userInitiatedWritesAndNotPrimary env2 0 (NamespaceString.db ns) = false ->
  exists s w2,
    dropIndexes env2 (S fuel2) ns idx w1 = Some (Returned s, w2) /\
    dbHolder w2 = dbHolder w1 /\ oplog w2 = oplog w1 /\
    ((exists str, getField idx "index" = BString str /\
        s = mkStatus ErrorCodes.IndexNotFound
              ("index not found with name [" +:+ c_str str +:+ "]"))
     \/ (exists o, getField idx "index" = BObject o /\
        s = mkStatus ErrorCodes.InvalidOptions
              ("can't find index with key: " +:+ toString o))).
Proof.
  intros Hcat Hnames Hkeys Hw Hrun Hgate.
  apply dropIndexes_holder in Hrun as [(Hno & _)|(_ & cat' & g & Hcat' & Hg & Hd & _)].
  { by specialize (Hno _ eq_refl). }
  rewrite Hcat in Hcat'. simplify_eq.
  apply selectedDropFn_shape in Hg
    as [(Hw' & _)|(p & d & _ & -> & Hp & Hid & Hsel)]; [congruence|].
  assert (Hcat1 : catalogOf (dbHolder w1) (NamespaceString.db ns)
                    (NamespaceString.toString ns) = Some (delete p cat')).
  { by rewrite Hd, catalogOf_alterCatalog, Hcat. }
  assert (exists s, resolutionFailure (delete p cat') (getField idx "index") = Some s /\
            ((exists str, getField idx "index" = BString str /\
                s = mkStatus ErrorCodes.IndexNotFound
                      ("index not found with name [" +:+ c_str str +:+ "]"))
             \/ (exists o, getField idx "index" = BObject o /\
                s = mkStatus ErrorCodes.InvalidOptions
                      ("can't find index with key: " +:+ toString o))))
    as (s & Hres & Hshape).
  { destruct Hsel as [(str & Hf & Hfind)|(o & Hf & Hfind)]; rewrite Hf in *.
    - unfold isWildcard in Hw. apply bool_decide_eq_false in Hw.
      eexists. split; [|left; eexists; split; [done|reflexivity]].
      unfold resolutionFailure. cbn [valuestr]. rewrite decide_False by done.
      unfold findIndexByName in *.
      by rewrite (list_find_delete_unique indexName _ _ _ _ Hnames Hfind).
    - eexists. split; [|right; eexists; split; [done|reflexivity]].
      unfold resolutionFailure. unfold findIndexByKeyPattern in *.
      by rewrite (list_find_delete_unique keyPattern _ _ _ _ Hkeys Hfind). }
  destruct (dropIndexes_resolution_failure env2 ns idx fuel2 w1 _ s Hgate Hcat1 Hres)
    as (w2 & Hrun2 & Hd2 & Ho2 & _).
  by exists s, w2.
Qed.

Lemma second_drop_finds_nothing_witness :
  exists w1 w2,
    dropIndexes (Example.contended 1) 2 Example.ns (Example.cmd (BString "a_1"))
                Example.w0 = Some (Returned Status_OK, w1) /\
    dropIndexes Example.primary 1 Example.ns (Example.cmd (BString "a_1")) w1 =
      Some (Returned (mkStatus ErrorCodes.IndexNotFound
                        "index not found with name [a_1]"), w2).
Proof.
  assert (exists w1,
            dropIndexes (Example.contended 1) 2 Example.ns
                        (Example.cmd (BString "a_1")) Example.w0 =
              Some (Returned Status_OK, w1))
    as (w1 & Hrun) by (eexists; vm_compute; reflexivity).
  destruct (second_drop_finds_nothing (Example.contended 1) Example.primary 2 0
              Example.ns (Example.cmd (BString "a_1")) Example.w0 w1
              [Example.id_; Example.a_1; Example.b_1])
    as (s & w2 & Hrun2 & _ & _ & Hs); [reflexivity| | |reflexivity|exact Hrun|reflexivity|].
  { apply (bool_decide_unpack _). vm_compute. exact I. }
  { apply (bool_decide_unpack _). vm_compute. exact I. }
  exists w1, w2. split; [exact Hrun|].
  destruct Hs as [(str & Hf & ->)|(o & Hf & _)]; [|discriminate].
  cbn in Hf. injection Hf as <-. exact Hrun2.
Defined.

(** X13: the wildcard can be repeated. A second wildcard drop after a
    successful one returns OK again and leaves the catalog as the first
    one left it, the _id indexes of the catalog before; it reports their
    number as nIndexesWas and writes a second entry to the log although
    it dropped nothing. *)
Theorem wildcard_twice env env2 fuel fuel2 ns idx w w1 cat :
  catalogOf (dbHolder w) (NamespaceString.db ns) (NamespaceString.toString ns)
    = Some cat ->
  isWildcard (getField idx "index") = true ->
  dropIndexes env fuel ns idx w = Some (Returned Status_OK, w1) ->
  userInitiatedWritesAndNotPrimary env2 0 (NamespaceString.db ns) = false ->
  storageEngine env2 0 = StorageOk ->
  logAppends env2 0 = true ->
  exists w2,
    dropIndexes env2 (S fuel2) ns idx w1 = Some (Returned Status_OK, w2) /\
    catalogOf (dbHolder w1) (NamespaceString.db ns) (NamespaceString.toString ns)
      = Some (filter (fun d => isIdIndex d = true) cat) /\
    catalogOf (dbHolder w2) (NamespaceString.db ns) (NamespaceString.toString ns)
      = catalogOf (dbHolder w1) (NamespaceString.db ns) (NamespaceString.toString ns) /\
    result w2 = append (appendNumber (result w1) "nIndexesWas"
                          (length (filter (fun d => isIdIndex d = true) cat)))
                  "msg" (BString "non-_id indexes dropped for collection") /\
    oplog w2 = oplog w ++ [oplogEntryOf ns idx; oplogEntryOf ns idx].
Proof.
  intros Hcat Hw Hrun Hgate Hok Hlog.
  apply dropIndexes_holder in Hrun as [(Hno & _)|(_ & cat' & g & Hcat' & Hg & Hd & Ho)].
  { by specialize (Hno _ eq_refl). }
  rewrite Hcat in Hcat'. simplify_eq.
  apply selectedDropFn_shape in Hg
    as [(_ & ->)|(p & d & Hw' & _)]; [|congruence].
  assert (Hall : forall c, dropAllIndexes c false = filter (fun d => isIdIndex d = true) c).
  { intros c. unfold dropAllIndexes. apply list_filter_iff. intros x.
    split; [by intros [? _]|by intros ?]. }
  assert (Hcat1 : catalogOf (dbHolder w1) (NamespaceString.db ns)
                    (NamespaceString.toString ns)
                  = Some (filter (fun d => isIdIndex d = true) cat')).
  { rewrite Hd, catalogOf_alterCatalog, Hcat. cbn. by rewrite Hall. }
  assert (Hg1 : selectedDropFn (filter (fun d => isIdIndex d = true) cat')
                  (getField idx "index") = Some (fun c => dropAllIndexes c false)).
  { unfold selectedDropFn, isWildcard in *.
    destruct (getField idx "index"); try done.
    apply bool_decide_eq_true in Hw. cbn [valuestr]. by rewrite decide_True. }
  destruct (attemptBody env2 ns idx 0 w1) as [r w2] eqn:Hb.
  destruct (attemptBody_effect _ _ _ _ _ _ _ _ Hgate Hcat1 Hb) as (_ & _ & Hcase).
  rewrite Hg1, Hok, Hlog in Hcase. destruct Hcase as (-> & Hd2 & Ho2 & Hr2).
  exists w2. rewrite (dropIndexes_first_attempt _ _ _ _ _ _ _ Hb) by done.
  split; [done|]. split; [done|].
  split.
  { rewrite Hd2, catalogOf_alterCatalog, Hcat1. cbn. rewrite Hall. f_equal.
    apply list_filter_filter_l. done. }
  split.
  { rewrite Hr2. unfold withMessage, withCount. by rewrite Hw. }
  rewrite Ho2, Ho, <- app_assoc. done.
Qed.

Lemma wildcard_twice_witness :
  exists w1 w2,
    dropIndexes Example.primary 1 Example.ns (Example.cmd (BString "*")) Example.w0
      = Some (Returned Status_OK, w1) /\
    dropIndexes Example.primary 1 Example.ns (Example.cmd (BString "*")) w1
      = Some (Returned Status_OK, w2) /\
    catalogOf (dbHolder w2) "test" "test.c" = Some [Example.id_] /\
    length (oplog w2) = 2.
Proof.
  assert (exists w1,
            dropIndexes Example.primary 1 Example.ns (Example.cmd (BString "*"))
                        Example.w0 = Some (Returned Status_OK, w1))
    as (w1 & Hrun) by (eexists; vm_compute; reflexivity).
  destruct (wildcard_twice Example.primary Example.primary 1 0 Example.ns
              (Example.cmd (BString "*")) Example.w0 w1
              [Example.id_; Example.a_1; Example.b_1])
    as (w2 & Hrun2 & Hc1 & Hc2 & _ & Ho); [reflexivity|reflexivity|exact Hrun|reflexivity..|].
  exists w1, w2. split; [exact Hrun|]. split; [exact Hrun2|].
  split; [exact (eq_trans Hc2 Hc1)|by rewrite Ho].
Defined.

(** ** The lock discipline *)

Lemma lockRun_app db held evs1 evs2 :
  lockRun db held (evs1 ++ evs2) =
  match lockRun db held evs1 with
  | Some held' => lockRun db held' evs2
  | None => None
  end.
Proof.
  revert held. induction evs1 as [|e evs1 IH]; intros held; cbn; [done|].
  destruct (lockStep db held e); [apply IH|done].
Qed.

Lemma lockRun_executor db rest exec :
  executorEvents exec = true ->
  lockRun db (DbLock db MODE_X :: rest) exec = Some (DbLock db MODE_X :: rest).
Proof.
  intros Hexec.
  assert (Hall : forall e, e ∈ exec ->
                   (exists c, e = EvKillBuilds c) \/ isCatalogAccess e = true)
    by (intros e; by apply executorEvents_elem).
  clear Hexec. induction exec as [|e exec IH]; [done|].
  assert (He : lockStep db (DbLock db MODE_X :: rest) e
               = Some (DbLock db MODE_X :: rest)).
  { destruct (Hall e) as [[c ->]|Hc]; [by left| |].
    - cbn. by rewrite decide_True.
    - destruct e; try discriminate; cbn; by rewrite decide_True. }
  cbn [lockRun]. rewrite He. apply IH. intros e' He'. apply Hall. by right.
Qed.

Lemma lockRun_gate env db rest :
  lockRun db (DbLock db MODE_X :: rest) (gateEvents env db)
  = Some (DbLock db MODE_X :: rest).
Proof.
  unfold gateEvents. destruct (writesAreReplicated env); [|done].
  cbn. by rewrite decide_True.
Qed.

Lemma attemptBody_locks env ns idx i w r w' :
  attemptBody env ns idx i w = (r, w') ->
  exists evs, trace w' = trace w ++ evs /\
    lockRun (NamespaceString.db ns) [] evs = Some [].
Proof.
  intros Hb. apply attemptBody_ends in Hb.
  inversion Hb as [Hgate
                  |exec w1 Hgate Hlog Hexec Htr Hop Hu Hx
                  |exec r1 w1 Hgate Hcause Hexec Htr Hdb Hop Hu Hx]; subst.
  - eexists. split; [reflexivity|]. cbn.
    rewrite lockRun_app, lockRun_gate. cbn. by rewrite decide_True.
  - eexists. split; [exact Htr|]. cbn.
    rewrite lockRun_app, lockRun_gate. cbn. rewrite decide_True by done.
    rewrite lockRun_app, lockRun_executor by done. cbn.
    by rewrite !decide_True.
  - eexists. split; [exact Htr|]. cbn.
    rewrite lockRun_app, lockRun_gate. cbn. rewrite decide_True by done.
    rewrite lockRun_app, lockRun_executor by done. cbn.
    by rewrite !decide_True.
Qed.

Lemma afterConflicts_locks env ns idx k : forall i w wk,
  afterConflicts env ns idx k i w = Some wk ->
  exists evs, trace wk = trace w ++ evs /\
    lockRun (NamespaceString.db ns) [] evs = Some [].
Proof.
  induction k as [|k IH]; intros i w wk Hc; cbn in Hc.
  - simplify_eq. exists []. by rewrite app_nil_r.
  - destruct (attemptBody env ns idx i w) as [[a|[]] w1] eqn:Hb; try discriminate.
    apply attemptBody_locks in Hb as (evs1 & Ht1 & Hl1).
    apply IH in Hc as (evs2 & Ht2 & Hl2). cbn in Ht2.
    exists (evs1 ++ [EvWriteConflict i] ++ evs2). split.
    + rewrite Ht2, Ht1. by rewrite <- !app_assoc.
    + rewrite lockRun_app, Hl1. cbn. exact Hl2.
Qed.

(** X14: the locks are scoped. Whatever the call returns or throws, and
    however many attempts it takes, its trace keeps the lock discipline:
    every attempt takes the global lock and then the database lock of
    the namespace in exclusive mode, everything it does happens under
    that lock, both locks are released in reverse order before a write
    conflict is retried, and no lock is held when the call ends. *)
Theorem locks_are_released env ns idx fuel w o w' :
  dropIndexes env fuel ns idx w = Some (o, w') ->
  exists evs, trace w' = trace w ++ evs /\
    lockRun (NamespaceString.db ns) [] evs = Some [].
Proof.
  intros Hrun.
  apply dropIndexes_inv in Hrun as (k & wk & r & _ & Hc & Hb & _ & _).
  apply afterConflicts_locks in Hc as (evs1 & Ht1 & Hl1).
  apply attemptBody_locks in Hb as (evs2 & Ht2 & Hl2).
  exists (evs1 ++ evs2). split.
  - by rewrite Ht2, Ht1, <- app_assoc.
  - by rewrite lockRun_app, Hl1.
Qed.

Lemma locks_are_released_witness :
  exists w' evs,
    dropIndexes Example.logFails 1 Example.ns (Example.cmd (BString "a_1"))
                Example.w0 = Some (Uncaught DurabilityFailure, w') /\
    trace w' = trace Example.w0 ++ evs /\
    lockRun "test" [] evs = Some [].
Proof.
  assert (exists w',
            dropIndexes Example.logFails 1 Example.ns (Example.cmd (BString "a_1"))
                        Example.w0 = Some (Uncaught DurabilityFailure, w'))
    as (w' & Hrun) by (eexists; vm_compute; reflexivity).
  destruct (locks_are_released Example.logFails Example.ns
              (Example.cmd (BString "a_1")) 1 Example.w0 _ w' Hrun)
    as (evs & Ht & Hl).
  exists w', evs. split; [exact Hrun|]. split; [exact Ht|exact Hl].
Defined.

(** * Write conflicts *)

Lemma afterConflicts_still_running env ns idx k i w wk :
  afterConflicts env ns idx k i w = Some wk ->
  dropIndexesFrom env i k ns idx w = None.
Proof.
  intros Hc. unfold dropIndexesFrom.
  replace k with (k + 0) at 1 by lia.
  by rewrite (retry_after_conflicts _ _ _ _ _ _ _ _ Hc).
Qed.

Lemma afterConflicts_prefix env ns idx k : forall i w wk j,
  afterConflicts env ns idx k i w = Some wk ->
  j <= k ->
  exists wj, afterConflicts env ns idx j i w = Some wj.
Proof.
  induction k as [|k IH]; intros i w wk j Hc Hj.
  - assert (j = 0) as -> by lia. by eexists.
  - destruct j as [|j]; [by eexists|]. cbn in Hc |- *.
    destruct (attemptBody env ns idx i w) as [[a|[]] w1]; try discriminate.
    apply (IH _ _ _ _ Hc). lia.
Qed.

Lemma afterConflicts_leaves env ns idx k w wk r w' fuel :
  afterConflicts env ns idx k 0 w = Some wk ->
  attemptBody env ns idx k wk = (r, w') ->
  r <> Throw WriteConflictException ->
  writeConflictRetryLoop (attemptBody env ns idx) (k + S fuel) 0 w = Some (r, w').
Proof.
  intros Hc Hb Hr.
  rewrite (retry_after_conflicts _ _ _ _ _ _ _ _ Hc). change (0 + k) with k.
  by apply retry_leaves.
Qed.

(** C5, as the code has it: a write conflict never reaches the caller
    and is retried without bound, but only the catalog and the operation
    log of the conflicted attempt are put back. After [k] attempts that
    each ran into a write conflict of the storage engine, the loop has
    not returned and goes into the next pass whatever [k] is; catalog and
    operation log are as before the call, while the result has the index
    count of each of the [k] attempts, the server log their command
    lines, and the builds they cancelled stay cancelled. Every other way
    the next attempt ends, ends the loop: the status it returned, or the
    exception it threw, is what the caller gets with the state the
    attempt left, and OK if it fell off the end of the block. *)
Theorem writeConflict_retried env ns idx k w wk :
  afterConflicts env ns idx k 0 w = Some wk ->
  (forall j, j < k ->
     userInitiatedWritesAndNotPrimary env j (NamespaceString.db ns) = false /\
     storageEngine env j = StorageWriteConflict) /\
  dropIndexes env k ns idx w = None /\
  (forall fuel o w',
     dropIndexes env fuel ns idx w = Some (o, w') ->
     k < fuel /\ o <> Uncaught WriteConflictException) /\
  dbHolder wk = dbHolder w /\ oplog wk = oplog w /\
  (0 < k ->
   exists cat,
     catalogOf (dbHolder w) (NamespaceString.db ns) (NamespaceString.toString ns)
       = Some cat /\
     result wk = Nat.iter k (fun b => withCount b cat) (result w) /\
     inProgress wk = survivors (NamespaceString.toString ns) (getField idx "index")
                       (inProgress w) /\
     serverLog wk = serverLog w ++
                      mjoin (replicate k (commandLine env (NamespaceString.toString ns)))) /\
  (forall fuel s w',
     attemptBody env ns idx k wk = (Val (Some s), w') ->
     dropIndexes env (k + S fuel) ns idx w = Some (Returned s, w')) /\
  (forall fuel e w',
     attemptBody env ns idx k wk = (Throw e, w') ->
     e <> WriteConflictException ->
     dropIndexes env (k + S fuel) ns idx w = Some (Uncaught e, w')) /\
  (forall fuel w',
     attemptBody env ns idx k wk = (Val None, w') ->
     dropIndexes env (k + S fuel) ns idx w = Some (Returned Status_OK, w')).
Proof.
  intros Hc.
  pose proof (afterConflicts_cause _ _ _ _ _ _ _ Hc) as Hcause.
  pose proof (afterConflicts_frame _ _ _ _ _ _ _ Hc) as (Hd & Ho & _).
  split; [intros j Hj; apply Hcause; lia|].
  split; [by apply (afterConflicts_still_running _ _ _ _ _ _ _ Hc)|].
  split.
  { intros fuel o w' Hrun. split.
    - destruct (decide (k < fuel)) as [|Hge]; [done|exfalso].
      destruct (afterConflicts_prefix _ _ _ _ _ _ _ fuel Hc ltac:(lia)) as (wj & Hj).
      apply afterConflicts_still_running in Hj.
      unfold dropIndexes in Hrun. congruence.
    - intros ->.
      apply dropIndexes_inv in Hrun as (k' & wk' & r & _ & _ & _ & Hne & Hret).
      destruct r as [[s|]|e]; cbn in Hret; by simplify_eq. }
  split; [done|]. split; [done|].
  split.
  { intros Hk.
    destruct (Hcause 0 ltac:(lia)) as [Hgate _].
    destruct (afterConflicts_prefix _ _ _ _ _ _ _ 1 Hc ltac:(lia)) as (w1 & H1).
    cbn in H1.
    destruct (attemptBody env ns idx 0 w) as [[a|[]] w0] eqn:Hb; try discriminate.
    destruct (collectionOf (dbHolder w) (NamespaceString.db ns)
                (NamespaceString.toString ns)) as [c|] eqn:Hcoll.
    2: { by destruct (attemptBody_absent_effect _ _ _ _ _ _ _ Hgate Hcoll Hb). }
    assert (Hcat : catalogOf (dbHolder w) (NamespaceString.db ns)
                     (NamespaceString.toString ns) = Some (indexCatalog c))
      by (unfold catalogOf; by rewrite Hcoll).
    exists (indexCatalog c). split; [done|].
    destruct (afterConflicts_effect _ _ _ _ _ _ _ _ Hcat Hc) as (Hp & Hr & _).
    split; [done|]. split.
    - destruct k as [|k]; [lia|]. by rewrite Hp, iter_survivors.
    - exact (afterConflicts_log _ _ _ _ _ _ _ Hc). }
  unfold dropIndexes, dropIndexesFrom.
  split; [|split].
  - intros fuel s w' Hb.
    by rewrite (afterConflicts_leaves _ _ _ _ _ _ _ _ fuel Hc Hb).
  - intros fuel e w' Hb He.
    rewrite (afterConflicts_leaves _ _ _ _ _ _ _ _ fuel Hc Hb); [done|].
    intros ?. by simplify_eq.
  - intros fuel w' Hb.
    by rewrite (afterConflicts_leaves _ _ _ _ _ _ _ _ fuel Hc Hb).
Qed.

Lemma writeConflict_retried_witness :
  exists wk w',
    afterConflicts (Example.contended 3) Example.ns (Example.cmd (BString "*"))
                   3 0 Example.w0 = Some wk /\
    dropIndexes (Example.contended 3) 3 Example.ns (Example.cmd (BString "*"))
                Example.w0 = None /\
    dbHolder wk = dbHolder Example.w0 /\
    result wk = BSONField "nIndexesWas" (BNumber 3)
                  (BSONField "nIndexesWas" (BNumber 3)
                     (BSONField "nIndexesWas" (BNumber 3) BSONEmpty)) /\
    inProgress wk = [] /\
    dropIndexes (Example.contended 3) (3 + 1) Example.ns (Example.cmd (BString "*"))
                Example.w0 = Some (Returned Status_OK, w').
Proof.
  assert (exists wk,
            afterConflicts (Example.contended 3) Example.ns
                           (Example.cmd (BString "*")) 3 0 Example.w0 = Some wk)
    as (wk & Hc) by (eexists; vm_compute; reflexivity).
  assert (exists w',
            attemptBody (Example.contended 3) Example.ns (Example.cmd (BString "*"))
                        3 wk = (Val None, w'))
    as (w' & Hb).
  { assert (Hwk : Some wk = afterConflicts (Example.contended 3) Example.ns
                              (Example.cmd (BString "*")) 3 0 Example.w0)
      by (by rewrite Hc).
    vm_compute in Hwk. injection Hwk as ->. eexists. vm_compute. reflexivity. }
  destruct (writeConflict_retried (Example.contended 3) Example.ns
              (Example.cmd (BString "*")) 3 Example.w0 wk Hc)
    as (_ & Hnone & _ & Hd & _ & Hkept & _ & _ & Hok).
  destruct Hkept as (cat & Hcat & Hr & Hp & _); [lia|].
  assert (cat = [Example.id_; Example.a_1; Example.b_1]) as ->
    by (vm_compute in Hcat; by injection Hcat as <-).
  exists wk, w'. split; [exact Hc|]. split; [exact Hnone|]. split; [exact Hd|].
  split; [rewrite Hr; reflexivity|]. split; [rewrite Hp; reflexivity|].
  exact (Hok 0 w' Hb).
Defined.

(** C5, as the claim has it, fails: the conflicted attempt is not
    discarded as a whole. In the wildcard drop of the example the first
    attempt runs into a write conflict; the pass that follows starts with
    the index count in the result, the command line in the server log and
    the build on the collection cancelled, and the call that then
    succeeds reports the count twice. *)
Lemma conflicted_attempt_not_discarded :
  exists w1 w',
    attemptBody (Example.contended 1) Example.ns (Example.cmd (BString "*"))
                0 Example.w0 = (Throw WriteConflictException, w1) /\
    ~ attemptDiscarded Example.w0 w1 /\
    dbHolder w1 = dbHolder Example.w0 /\
    oplog w1 = oplog Example.w0 /\
    result Example.w0 = BSONEmpty /\
    result w1 = BSONField "nIndexesWas" (BNumber 3) BSONEmpty /\
    inProgress Example.w0 = [mkIndexBuild "test.c" "c_1" (Example.key "c")] /\
    inProgress w1 = [] /\
    serverLog Example.w0 = [] /\
    serverLog w1 = ["CMD: dropIndexes test.c"] /\
    dropIndexes (Example.contended 1) 2 Example.ns (Example.cmd (BString "*"))
                Example.w0 = Some (Returned Status_OK, w') /\
    result w' =
      BSONField "nIndexesWas" (BNumber 3)
        (BSONField "nIndexesWas" (BNumber 3)
           (BSONField "msg" (BString "non-_id indexes dropped for collection")
              BSONEmpty)).
Proof.
  eexists. eexists.
  split; [vm_compute; reflexivity|].
  split.
  { intros (_ & _ & _ & _ & Hr & _). vm_compute in Hr. discriminate. }
  repeat (split; [vm_compute; reflexivity|]).
  vm_compute. reflexivity.
Qed.
